(** * Kito: the runtime half of the client and of the server pipeline

    A shallow embedding of
    - the client of [client/index.ts]: [client], [createProxy],
      [createMethodCaller] and their helpers [hasFiles], [resolveHeaders],
      [buildQueryString], [parseResponse];
    - the server class of [server/kito.ts]: [state], [decorate], [derive],
      [resolve], [use] and [wrapHandler].

    JavaScript values are finite trees; a JavaScript object is the list of
    its own enumerable properties in enumeration order; a promise is its
    settled outcome; the calls made on the network primitive are logged. *)

From Stdlib Require Import Strings.String Strings.Ascii Strings.Byte.
From Stdlib Require Import Lists.List ZArith Bool Lia.
From Stdlib Require Import Numbers.DecimalString.
Import ListNotations.

Open Scope string_scope.
Open Scope list_scope.

Set Implicit Arguments.
Set Warnings "-register-all".

(** ** Strings: the methods of [String.prototype] the sources call *)

Module Str.

(** [haystack.includes(needle)] *)
Fixpoint includes (needle haystack : string) : bool :=
  if String.prefix needle haystack then true
  else match haystack with
       | EmptyString => false
       | String _ rest => includes needle rest
       end.

(** [s.endsWith(String c "")] for a one-character suffix *)
Fixpoint endsWithChar (c : ascii) (s : string) : bool :=
  match s with
  | EmptyString => false
  | String a EmptyString => Ascii.eqb a c
  | String _ rest => endsWithChar c rest
  end.

(** [s.slice(0, -1)] *)
Fixpoint dropLast (s : string) : string :=
  match s with
  | EmptyString => EmptyString
  | String _ EmptyString => EmptyString
  | String a rest => String a (dropLast rest)
  end.

(** [parts.join(sep)] *)
Fixpoint join (sep : string) (parts : list string) : string :=
  match parts with
  | [] => ""
  | [p] => p
  | p :: rest => p ++ sep ++ join sep rest
  end.

(** [s.split(String c "")[0]]: the text before the first [c] *)
Fixpoint beforeFirst (c : ascii) (s : string) : string :=
  match s with
  | EmptyString => EmptyString
  | String a rest =>
      if Ascii.eqb a c then EmptyString else String a (beforeFirst c rest)
  end.

Definition upperChar (a : ascii) : ascii :=
  let n := nat_of_ascii a in
  if (97 <=? n)%nat && (n <=? 122)%nat then ascii_of_nat (n - 32) else a.

(** [s.toUpperCase()] on the ASCII letters; the verbs are ASCII *)
Fixpoint toUpperCase (s : string) : string :=
  match s with
  | EmptyString => EmptyString
  | String a rest => String (upperChar a) (toUpperCase rest)
  end.

(** The decimal numeral of an array index, as a property key *)
Definition ofNat (n : nat) : string :=
  NilZero.string_of_uint (Nat.to_uint n).

(** The one-character strings of [s], as [s[0]], [s[1]], ... *)
Fixpoint chars (s : string) : list string :=
  match s with
  | EmptyString => []
  | String a rest => String a "" :: chars rest
  end.

End Str.

(** ** Promises and JavaScript values *)

(** A promise once it has settled: fulfilled with a value or rejected with a
    reason. *)
Inductive Settled (E A : Type) : Type :=
| Resolved (a : A)
| Rejected (reason : E).

Arguments Resolved {E A} a.
Arguments Rejected {E A} reason.

(** The [Headers] object of a response; only [get] is used. *)
Record Headers : Type := mkHeaders { Headers_get : string -> option string }.

(** A [Response] as the client reads it: [status], [headers] and the outcome
    of each body reader. [V] is the type of JavaScript values. *)
Record ResponseOf (V : Type) : Type := mkResponse {
  status : Z;
  headers : Headers;
  json : Settled V V;
  arrayBuffer : Settled V (list byte);
  formData : Settled V (list (string * V));
  text : Settled V string
}.

Arguments mkResponse {V}.
Arguments status {V}.
Arguments headers {V}.
Arguments json {V}.
Arguments arrayBuffer {V}.
Arguments formData {V}.
Arguments text {V}.

Inductive JsValue : Type :=
| JUndefined
| JNull
| JBool (b : bool)
| JNum (n : Z)
| JStr (s : string)
| JArr (items : list JsValue)
| JObj (props : list (string * JsValue))
| JBlob (content : list byte)                  (* Blob or File *)
| JArrayBuffer (content : list byte)
| JFormData (entries : list (string * JsValue)) (* the [append] calls made on it *)
| JResponse (r : ResponseOf JsValue)
| JStoreRef.                                   (* the server's shared store object *)

Definition Response : Type := ResponseOf JsValue.
Definition Promise (A : Type) : Type := Settled JsValue A.

(** An object: its own enumerable string-keyed properties, in enumeration
    order, without duplicate keys when built with [Js.set]. (A new key that is
    an array index is enumerated before the other keys, where [Js.set] puts
    every new key last; the properties below read objects by key.) *)
Definition Obj : Type := list (string * JsValue).

Module Js.

(** [typeof v === "object"] *)
Definition typeofObject (v : JsValue) : bool :=
  match v with
  | JUndefined | JBool _ | JNum _ | JStr _ => false
  | _ => true
  end.

(** The truthiness test of [if (v)], [!v], [v || w], [v && w] *)
Definition truthy (v : JsValue) : bool :=
  match v with
  | JUndefined | JNull => false
  | JBool b => b
  | JNum n => negb (n =? 0)%Z
  | JStr s => negb (s =? "")
  | _ => true
  end.

(** [v === undefined || v === null] *)
Definition isNullish (v : JsValue) : bool :=
  match v with
  | JUndefined | JNull => true
  | _ => false
  end.

(** [v === null] *)
Definition isNull (v : JsValue) : bool :=
  match v with
  | JNull => true
  | _ => false
  end.

Definition isArray (v : JsValue) : bool :=
  match v with
  | JArr _ => true
  | _ => false
  end.

Fixpoint indexedFrom (i : nat) (vs : list JsValue) : Obj :=
  match vs with
  | [] => []
  | v :: rest => (Str.ofNat i, v) :: indexedFrom (S i) rest
  end.

(** [Object.entries(v)], which is also what [{...v}], [Object.assign(_, v)]
    and [for (key in v)] enumerate: the properties of an object, the
    indexed elements of an array or of a string, nothing for the other
    primitives and for the platform objects (their members live on the
    prototype; the inherited ones a [for-in] visits are never Blobs). *)
Definition entries (v : JsValue) : Obj :=
  match v with
  | JObj props => props
  | JArr items => indexedFrom 0 items
  | JStr s => indexedFrom 0 (map JStr (Str.chars s))
  | _ => []
  end.

(** [o[key]] on an object: [None] stands for an absent property *)
Fixpoint get (key : string) (o : Obj) : option JsValue :=
  match o with
  | [] => None
  | (k, v) :: rest => if k =? key then Some v else get key rest
  end.

(** [o[key] = v]: an existing key keeps its place, a new one goes last *)
Fixpoint set (key : string) (v : JsValue) (o : Obj) : Obj :=
  match o with
  | [] => [(key, v)]
  | (k, w) :: rest =>
      if k =? key then (k, v) :: rest else (k, w) :: set key v rest
  end.

(** [Object.assign(target, source)], and [{...target, ...source}] *)
Definition assign (target source : Obj) : Obj :=
  fold_left (fun o kv => set (fst kv) (snd kv) o) source target.

(** [v?.[key]] for the option names the client reads ([query], [headers],
    [fetch]): [undefined] on [null] and [undefined], and on every value
    without such an own property. (A [Response] has an inherited [headers];
    it is a [Headers] instance, whose spread is empty like that of
    [undefined].) *)
Definition prop (v : JsValue) (key : string) : JsValue :=
  match v with
  | JObj props => match get key props with Some x => x | None => JUndefined end
  | _ => JUndefined
  end.

(** [o.key] read as a value *)
Definition field (key : string) (o : Obj) : JsValue :=
  match get key o with Some x => x | None => JUndefined end.

End Js.

(** ** The client: [client/index.ts] *)

(** What the runtime provides and the sources only call: [String(v)],
    [JSON.stringify(v)], the serialisation of a [URLSearchParams] (given as
    its appended name/value pairs) and the global [fetch]. *)
Record Platform : Type := mkPlatform {
  js_String : JsValue -> string;
  JSON_stringify : JsValue -> string;
  URLSearchParams_toString : list (string * string) -> string;
  global_fetch : string -> Obj -> Promise Response
}.

(** An asynchronous computation of the client: the calls it made on the
    network primitive, as [(url, init)] in order, and its settled result. *)
Definition Async (A : Type) : Type := (list (string * Obj) * Promise A)%type.

Definition ret {A} (a : A) : Async A := ([], Resolved a).

Definition bind {A B} (m : Async A) (k : A -> Async B) : Async B :=
  match m with
  | (calls, Resolved a) => let (calls', r) := k a in (calls ++ calls', r)
  | (calls, Rejected e) => (calls, Rejected e)
  end.

(** [await p] for a promise that performs no network call *)
Definition await {A} (p : Promise A) : Async A := ([], p).

(** [await fetcher(url, init)] *)
Definition callFetch (fetcher : string -> Obj -> Promise Response)
    (url : string) (init : Obj) : Async Response :=
  ([(url, init)], fetcher url init).

Definition fetchCalls {A} (m : Async A) : list (string * Obj) := fst m.
Definition settled {A} (m : Async A) : Promise A := snd m.

Declare Scope async_scope.
Delimit Scope async_scope with async.
Notation "x <- m ;; k" := (bind m (fun x => k))
  (at level 61, m at next level, right associativity) : async_scope.

(** [Client.Config["headers"]]: absent, a static record, or a provider
    function, given by what one invocation of it settles to. *)
Inductive HeaderSource : Type :=
| NoHeaders
| StaticHeaders (h : Obj)
| HeaderProvider (outcome : Promise JsValue).

(** [Client.Config]. [config_onRequest path init] settles to the [init]
    object as the hook left it (it receives the object itself) and to the
    value the hook returned. [config_fetchOptions] is [JUndefined] when
    absent. *)
Record Config : Type := mkConfig {
  config_fetch : option (string -> Obj -> Promise Response);
  config_headers : HeaderSource;
  config_onRequest : option (string -> Obj -> Promise (Obj * JsValue));
  config_onResponse : option (Response -> Promise JsValue);
  config_fetchOptions : JsValue
}.

(** The result envelope [{data, error, status, response, headers}] *)
Module Envelope.
Record t : Type := make {
  data : JsValue;
  error : JsValue;
  status : Z;
  response : Response;
  headers : Headers
}.
End Envelope.

Definition HTTP_METHODS : list string :=
  ["get"; "post"; "put"; "delete"; "patch"; "head"; "options"].

Definition LOCAL_HOSTS : list string := ["localhost"; "127.0.0.1"; "0.0.0.0"].

(** [value instanceof Blob] *)
Definition isFile (value : JsValue) : bool :=
  match value with
  | JBlob _ => true
  | _ => false
  end.

Definition hasFiles (obj : JsValue) : bool :=
  if negb (Js.truthy obj) || negb (Js.typeofObject obj) then false
  else
    existsb
      (fun kv =>
         let value := snd kv in
         isFile value
         || (Js.isArray value
             && match value with
                | JArr items => existsb isFile items
                | _ => false
                end))
      (Js.entries obj).

Definition resolveHeaders (hs : HeaderSource) : Promise JsValue :=
  match hs with
  | NoHeaders => Resolved (JObj [])
  | HeaderProvider outcome =>
      match outcome with
      | Resolved v => Resolved (if Js.truthy v then v else JObj [])
      | Rejected e => Rejected e
      end
  | StaticHeaders h => Resolved (JObj h)
  end.

(** [{...a, ...b}] *)
Definition spread2 (a b : JsValue) : Obj :=
  Js.assign (Js.assign [] (Js.entries a)) (Js.entries b).

Section Client.

Variable pf : Platform.

(** One turn of the loop of [buildQueryString]: what an entry appends *)
Definition appendQueryEntry (params : list (string * string))
    (entry : string * JsValue) : list (string * string) :=
  let (key, value) := entry in
  if Js.isNullish value then params
  else
    match value with
    | JArr items =>
        fold_left (fun ps v => ps ++ [(key, js_String pf v)]) items params
    | _ =>
        if Js.typeofObject value
        then params ++ [(key, JSON_stringify pf value)]
        else params ++ [(key, js_String pf value)]
    end.

Definition buildQueryString (query : JsValue) : string :=
  let params := fold_left appendQueryEntry (Js.entries query) [] in
  let str := URLSearchParams_toString pf params in
  if str =? "" then "" else "?" ++ str.

Definition parseResponse (response : Response) : Promise JsValue :=
  let contentType :=
    option_map (Str.beforeFirst ";")
               (Headers_get (headers response) "content-type") in
  let isType (t : string) :=
    match contentType with
    | Some c => c =? t
    | None => false
    end in
  if isType "application/json" then json response
  else if isType "application/octet-stream" then
    match arrayBuffer response with
    | Resolved bytes => Resolved (JArrayBuffer bytes)
    | Rejected e => Rejected e
    end
  else if isType "multipart/form-data" then
    match formData response with
    | Resolved fd => Resolved (JObj (Js.assign [] fd))
    | Rejected e => Rejected e
    end
  else if isType "text/event-stream" then Resolved (JResponse response)
  else
    match text response with
    | Resolved s => Resolved (JStr s)
    | Rejected e => Rejected e
    end.

(** The entries the multipart branch appends to its [FormData] *)
Definition appendFormEntry (fd : list (string * JsValue))
    (entry : string * JsValue) : list (string * JsValue) :=
  let (key, value) := entry in
  match value with
  | JArr items => fold_left (fun acc v => acc ++ [(key, v)]) items fd
  | _ => fd ++ [(key, value)]
  end.

(** The block "Handle body" of [createMethodCaller], once its guard
    [body !== undefined && body !== null && !isGetOrHead] has passed *)
Definition encodeBody (body : JsValue) (init : Obj) : Obj :=
  if hasFiles body then
    Js.set "body" (JFormData (fold_left appendFormEntry (Js.entries body) []))
           init
  else if Js.typeofObject body then
    let init :=
      Js.set "headers"
        (JObj (Js.set "content-type" (JStr "application/json")
                      (Js.assign [] (Js.entries (Js.field "headers" init)))))
        init in
    Js.set "body" (JStr (JSON_stringify pf body)) init
  else
    let init :=
      Js.set "headers"
        (JObj (Js.set "content-type" (JStr "text/plain")
                      (Js.assign [] (Js.entries (Js.field "headers" init)))))
        init in
    Js.set "body" (JStr (js_String pf body)) init.

(** The request initialisation as it stands before the [onRequest] hook *)
Definition buildInit (config : Config) (method : string)
    (configHeaders actualOptions body : JsValue) (isGetOrHead : bool) : Obj :=
  let requestHeaders := spread2 configHeaders (Js.prop actualOptions "headers") in
  let init :=
    Js.assign
      (Js.assign [("method", JStr (Str.toUpperCase method));
                  ("headers", JObj requestHeaders)]
                 (Js.entries (config_fetchOptions config)))
      (Js.entries (Js.prop actualOptions "fetch")) in
  if negb (Js.isNullish body) && negb isGetOrHead
  then encodeBody body init
  else init.

(** The block "onRequest hook" *)
Definition runOnRequest (config : Config) (path : string) (init : Obj)
    : Async Obj :=
  match config_onRequest config with
  | Some hook =>
      (r <- await (hook path init) ;;
       let (init, modified) := r : Obj * JsValue in
       ret (if Js.truthy modified
            then Js.assign (Js.assign [] init) (Js.entries modified)
            else init))%async
  | None => ret init
  end.

(** The blocks "Parse response" and "Handle error status" *)
Definition handleResponse (config : Config) (response : Response)
    : Async Envelope.t :=
  (data <- match config_onResponse config with
           | Some hook =>
               (result <- await (hook response) ;;
                ret (if Js.isNullish result then JNull else result))
           | None => ret JNull
           end ;;
   data <- (if Js.isNull data then await (parseResponse response)
            else ret data) ;;
   ret (if (status response >=? 300)%Z || (status response <? 200)%Z
        then Envelope.make JNull
               (JObj [("status", JNum (status response)); ("value", data)])
               (status response) response (headers response)
        else Envelope.make data JNull
               (status response) response (headers response)))%async.

(** The URL of the request *)
Definition requestUrl (domain : string) (paths : list string)
    (actualOptions : JsValue) : string :=
  let path := ("/" ++ Str.join "/" paths)%string in
  let url := (domain ++ path)%string in
  if Js.truthy (Js.prop actualOptions "query")
  then (url ++ buildQueryString (Js.prop actualOptions "query"))%string
  else url.

(** The caller a verb returns, applied to its two optional arguments
    ([JUndefined] for a missing one) *)
Definition createMethodCaller (domain : string) (config : Config)
    (paths : list string) (method : string)
    (bodyOrOptions options : JsValue) : Async Envelope.t :=
  let path := ("/" ++ Str.join "/" paths)%string in
  let isGetOrHead := (method =? "get") || (method =? "head") in
  let actualOptions := if isGetOrHead then bodyOrOptions else options in
  let body := if isGetOrHead then JUndefined else bodyOrOptions in
  let url := requestUrl domain paths actualOptions in
  (configHeaders <- await (resolveHeaders (config_headers config)) ;;
   let init :=
     buildInit config method configHeaders actualOptions body isGetOrHead in
   init <- runOnRequest config path init ;;
   let fetcher :=
     match config_fetch config with
     | Some f => f
     | None => global_fetch pf
     end in
   response <- callFetch fetcher url init ;;
   handleResponse config response)%async.

(** The proxy of [createProxy]: the state its two traps close over *)
Record Proxy : Type := mkProxy {
  proxy_domain : string;
  proxy_config : Config;
  proxy_paths : list string
}.

Definition createProxy (domain : string) (config : Config)
    (paths : list string) : Proxy :=
  mkProxy domain config paths.

Inductive Member : Type :=
| MethodCaller (call : JsValue -> JsValue -> Async Envelope.t)
| SubProxy (p : Proxy).

(** The [get] trap *)
Definition proxy_get (p : Proxy) (prop : string) : Member :=
  let (domain, config, paths) := p in
  if existsb (String.eqb prop) HTTP_METHODS then
    MethodCaller (createMethodCaller domain config paths prop)
  else if prop =? "index" then SubProxy (createProxy domain config paths)
  else SubProxy (createProxy domain config (paths ++ [prop])).

(** The [apply] trap *)
Definition proxy_apply (p : Proxy) (args : list JsValue) : Proxy :=
  let (domain, config, paths) := p in
  let params := hd JUndefined args in
  if Js.truthy params && Js.typeofObject params then
    match map snd (Js.entries params) with
    | v :: _ => createProxy domain config (paths ++ [js_String pf v])
    | [] => createProxy domain config paths
    end
  else createProxy domain config paths.

Definition client (domain : string) (config : Config) : Proxy :=
  let domain :=
    if negb (Str.includes "://" domain) then
      let isLocal := existsb (fun host => Str.includes host domain) LOCAL_HOSTS in
      ((if isLocal then "http://" else "https://") ++ domain)%string
    else domain in
  let domain :=
    if Str.endsWithChar "/" domain then Str.dropLast domain else domain in
  createProxy domain config [].

(** Names for the parts of a call, for the properties below *)

Definition isGetOrHead (method : string) : bool :=
  (method =? "get") || (method =? "head").

(** The options object and the body a caller takes from its two arguments *)
Definition actualOptionsOf (method : string) (bodyOrOptions options : JsValue)
  : JsValue :=
  if isGetOrHead method then bodyOrOptions else options.

Definition bodyOf (method : string) (bodyOrOptions : JsValue) : JsValue :=
  if isGetOrHead method then JUndefined else bodyOrOptions.

(** [config.fetch ?? fetch] *)
Definition fetcherOf (config : Config) : string -> Obj -> Promise Response :=
  match config_fetch config with
  | Some f => f
  | None => global_fetch pf
  end.

Definition pathOf (paths : list string) : string :=
  "/" ++ Str.join "/" paths.

End Client.

(** ** The server: [server/kito.ts] *)

Module Server.

(** What a request's pipeline works on: the context object [ctx] and the
    shared store object, which [ctx.store] refers to ([JStoreRef]). *)
Record PState : Type := mkPState {
  ps_ctx : Obj;
  ps_store : Obj
}.

(** A derive, resolve or route handler function. It is called with the
    context object; it may write to that object and to the store, so it is
    given both and leaves both, and it settles to what it returned. *)
Definition CtxFn : Type := PState -> PState * Promise JsValue.

Inductive Stage : Type := Derive | Resolve | Handle.

(** What the pipeline did, in order: the functions it called, each with the
    context and store it was called on, and what it wrote on [ctx.res]. *)
Inductive Event : Type :=
| Invoked (stage : Stage) (seen : PState)
| ResJson (result : JsValue)
| ResSend (body : string).

Definition Pipe (A : Type) : Type :=
  PState -> list Event * PState * Promise A.

Definition pret {A} (a : A) : Pipe A := fun st => ([], st, Resolved a).

Definition pbind {A B} (m : Pipe A) (k : A -> Pipe B) : Pipe B :=
  fun st =>
    match m st with
    | (evs, st', Resolved a) =>
        match k a st' with
        | (evs', st'', r) => (evs ++ evs', st'', r)
        end
    | (evs, st', Rejected e) => (evs, st', Rejected e)
    end.

Declare Scope pipe_scope.
Delimit Scope pipe_scope with pipe.
Notation "x <- m ;; k" := (pbind m (fun x => k))
  (at level 61, m at next level, right associativity) : pipe_scope.
Notation "m ;;; k" := (pbind m (fun _ => k))
  (at level 61, right associativity) : pipe_scope.

(** [await fn(ctx)] *)
Definition invoke (stage : Stage) (fn : CtxFn) : Pipe JsValue :=
  fun st => let (st', r) := fn st in ([Invoked stage st], st', r).

Definition modifyCtx (f : Obj -> Obj -> Obj) : Pipe unit :=
  fun st =>
    ([], mkPState (f (ps_store st) (ps_ctx st)) (ps_store st), Resolved tt).

Definition emit (e : Event) : Pipe unit := fun st => ([e], st, Resolved tt).

(** The own enumerable properties of a value the pipeline may meet: those
    of the store when the value is the store itself *)
Definition entriesIn (store : Obj) (v : JsValue) : Obj :=
  match v with
  | JStoreRef => store
  | _ => Js.entries v
  end.

(** [if (derived && typeof derived === "object") Object.assign(ctx, derived)] *)
Definition mergeReturned (derived : JsValue) (store ctx : Obj) : Obj :=
  if Js.truthy derived && Js.typeofObject derived
  then Js.assign ctx (entriesIn store derived)
  else ctx.

(** The two [for ... of] loops of the wrapped handler *)
Fixpoint runFns (stage : Stage) (fns : list CtxFn) : Pipe unit :=
  match fns with
  | [] => pret tt
  | fn :: rest =>
      (derived <- invoke stage fn ;;
       modifyCtx (mergeReturned derived) ;;;
       runFns stage rest)%pipe
  end.

(** The [Kito] instance: what its methods read and write at run time.
    [decorators] is [internalServer.decorators], absent until the first
    [decorate]. *)
Record Kito : Type := mkKito {
  prefix : option string;
  singletonStore : Obj;
  deriveFunctions : list CtxFn;
  resolveFunctions : list CtxFn;
  decorators : option Obj
}.

Definition kito (prefix : option string) : Kito :=
  mkKito prefix [] [] [] None.

Definition state (this : Kito) (key : string) (value : JsValue) : Kito :=
  mkKito (prefix this) (Js.set key value (singletonStore this))
         (deriveFunctions this) (resolveFunctions this) (decorators this).

Definition decorate (this : Kito) (key : string) (value : JsValue) : Kito :=
  let ds := match decorators this with Some d => d | None => [] end in
  mkKito (prefix this) (singletonStore this)
         (deriveFunctions this) (resolveFunctions this)
         (Some (Js.set key value ds)).

Definition derive (this : Kito) (fn : CtxFn) : Kito :=
  mkKito (prefix this) (singletonStore this)
         (deriveFunctions this ++ [fn]) (resolveFunctions this)
         (decorators this).

Definition resolve (this : Kito) (fn : CtxFn) : Kito :=
  mkKito (prefix this) (singletonStore this)
         (deriveFunctions this) (resolveFunctions this ++ [fn])
         (decorators this).

Definition use (this plugin : Kito) : Kito :=
  mkKito (prefix this)
         (Js.assign (singletonStore this) (singletonStore plugin))
         (deriveFunctions this ++ deriveFunctions plugin)
         (resolveFunctions this ++ resolveFunctions plugin)
         (decorators this).

Section Pipeline.

Variable pf : Platform.

(** The function [wrapHandler] returns, run on the context [ctx] of a
    request. [deriveFns], [resolveFns] and [decorators] are the objects
    [wrapHandler] captured, as they are when the request arrives; the
    captured store is the store of the state the pipeline runs in. *)
Definition wrapHandler (deriveFns resolveFns : list CtxFn)
    (decorators : Obj) (handler : CtxFn) : Pipe unit :=
  (modifyCtx (fun _ ctx => Js.set "store" JStoreRef ctx) ;;;
   modifyCtx (fun _ ctx => Js.assign ctx decorators) ;;;
   runFns Derive deriveFns ;;;
   runFns Resolve resolveFns ;;;
   result <- invoke Handle handler ;;
   match result with
   | JUndefined => pret tt
   | _ =>
       if Js.typeofObject result && negb (Js.isNull result)
       then emit (ResJson result)
       else emit (ResSend (js_String pf result))
   end)%pipe.

(** What the last step writes on [ctx.res] for a handler's result *)
Definition written (result : JsValue) : list Event :=
  match result with
  | JUndefined => []
  | _ =>
      if Js.typeofObject result && negb (Js.isNull result)
      then [ResJson result]
      else [ResSend (js_String pf result)]
  end.

(** The wrapped handler of an instance whose setup is complete *)
Definition wrapHandlerOf (this : Kito) (handler : CtxFn) (ctx : Obj) :=
  wrapHandler (deriveFunctions this) (resolveFunctions this)
              (match decorators this with Some d => d | None => [] end)
              handler
              (mkPState ctx (singletonStore this)).

End Pipeline.

End Server.

(** ** A reference platform, to run the sources' own tests on the model *)

Module Reference.

Definition showZ (n : Z) : string := NilZero.string_of_int (Z.to_int n).

(** [String(v)] *)
Fixpoint toStr (v : JsValue) : string :=
  match v with
  | JUndefined => "undefined"
  | JNull => "null"
  | JBool true => "true"
  | JBool false => "false"
  | JNum n => showZ n
  | JStr s => s
  | JArr items =>
      Str.join "," (map (fun x => if Js.isNullish x then "" else toStr x) items)
  | JBlob _ => "[object Blob]"
  | JArrayBuffer _ => "[object ArrayBuffer]"
  | JFormData _ => "[object FormData]"
  | JResponse _ => "[object Response]"
  | JObj _ | JStoreRef => "[object Object]"
  end.

Definition dquote : string := String (ascii_of_nat 34) "".

Fixpoint escape (s : string) : string :=
  match s with
  | EmptyString => EmptyString
  | String a rest =>
      if (nat_of_ascii a =? 34)%nat || (nat_of_ascii a =? 92)%nat
      then String (ascii_of_nat 92) (String a (escape rest))
      else String a (escape rest)
  end.

Definition quote (s : string) : string := dquote ++ escape s ++ dquote.

(** [JSON.stringify(v)] on the values a request body is made of; of the
    escapes, the quote and the backslash *)
Fixpoint stringify (v : JsValue) : string :=
  match v with
  | JUndefined => "undefined"
  | JNull => "null"
  | JBool true => "true"
  | JBool false => "false"
  | JNum n => showZ n
  | JStr s => quote s
  | JArr items =>
      "[" ++ Str.join ","
               (map (fun x => match x with
                              | JUndefined => "null"
                              | _ => stringify x
                              end) items) ++ "]"
  | JObj props =>
      "{" ++ Str.join ","
               (flat_map (fun kv => match kv with
                                    | (_, JUndefined) => []
                                    | (k, x) => [(quote k ++ ":" ++ stringify x)%string]
                                    end) props) ++ "}"
  | _ => "{}"
  end.

Definition hexDigit (n : nat) : ascii :=
  ascii_of_nat (if (n <? 10)%nat then 48 + n else 55 + n).

Definition isUnreserved (n : nat) : bool :=
  (((48 <=? n) && (n <=? 57)) || ((65 <=? n) && (n <=? 90))
   || ((97 <=? n) && (n <=? 122))
   || (n =? 42) || (n =? 45) || (n =? 46) || (n =? 95))%nat.

(** The [application/x-www-form-urlencoded] byte serialisation *)
Fixpoint urlencode (s : string) : string :=
  match s with
  | EmptyString => EmptyString
  | String a rest =>
      let n := nat_of_ascii a in
      if isUnreserved n then String a (urlencode rest)
      else if (n =? 32)%nat then String "+" (urlencode rest)
      else String "%" (String (hexDigit (n / 16))
                         (String (hexDigit (n mod 16)) (urlencode rest)))
  end.

Definition searchParams (params : list (string * string)) : string :=
  Str.join "&" (map (fun kv => (urlencode (fst kv) ++ "=" ++ urlencode (snd kv))%string)
                    params).

(** The platform with a given global [fetch] *)
Definition platform (fetch : string -> Obj -> Promise Response) : Platform :=
  mkPlatform toStr stringify searchParams fetch.

(** A [Headers] object holding one [content-type] *)
Definition contentTypeHeaders (ct : string) : Headers :=
  mkHeaders (fun name => if name =? "content-type" then Some ct else None).

Definition unread {A} : Promise A := Rejected (JStr "body reader not provided").

(** The mocked responses of the client's tests *)
Definition jsonResponse (st : Z) (body : JsValue) : Response :=
  mkResponse st (contentTypeHeaders "application/json")
             (Resolved body) unread unread unread.

Definition textResponse (st : Z) (body : string) : Response :=
  mkResponse st (contentTypeHeaders "text/plain")
             unread unread unread (Resolved body).

(** A mocked [fetch] that resolves to one response *)
Definition mockFetch (r : Response) : string -> Obj -> Promise Response :=
  fun _ _ => Resolved r.

Definition noConfig : Config := mkConfig None NoHeaders None None JUndefined.

(** A configuration whose post-response hook returns a value *)
Definition hookConfig : Config :=
  mkConfig None NoHeaders None (Some (fun _ => Resolved (JStr "from hook")))
           JUndefined.

(** A network primitive that rejects *)
Definition failingFetch : string -> Obj -> Promise Response :=
  fun _ _ => Rejected (JStr "connection refused").


(** A structured body without files *)
Definition john : JsValue :=
  JObj [("name", JStr "John"); ("email", JStr "john@example.com")].


(** The platform of the tests: [fetch] resolves to a 200 JSON response *)
Definition okPlatform : Platform :=
  platform (mockFetch (jsonResponse 200 (JObj [("ok", JBool true)]))).

(** A derive function that contributes a token and a default user *)
Definition deriveToken : Server.CtxFn :=
  fun st =>
    (st, Resolved (JObj [("authToken", JStr "secret");
                         ("user", JStr "anonymous")])).

(** A derive function that reads the token and contributes the user *)
Definition deriveUser : Server.CtxFn :=
  fun st =>
    (st, Resolved (JObj [("user", Js.field "authToken" (Server.ps_ctx st))])).

(** A resolve function that counts the request in the store *)
Definition resolveCount : Server.CtxFn :=
  fun st =>
    (Server.mkPState (Server.ps_ctx st)
                     (Js.set "requestCount" (JNum 1) (Server.ps_store st)),
     Resolved (JObj [("requestNumber", JNum 1)])).

(** A route handler that answers with the user of the context *)
Definition whoami : Server.CtxFn :=
  fun st => (st, Resolved (JObj [("user", Js.field "user" (Server.ps_ctx st))])).

(** A configuration whose header provider rejects *)
Definition noTokenConfig : Config :=
  mkConfig None (HeaderProvider (Rejected (JStr "no token"))) None None
           JUndefined.

(** A 500 response that announces JSON and whose body is not JSON *)
Definition brokenResponse : Response :=
  mkResponse 500 (contentTypeHeaders "application/json")
             (Rejected (JStr "Unexpected token < in JSON"))
             unread unread (Resolved "<html>Internal Server Error</html>").

(** A configuration whose pre-request hook returns a timeout and a method *)
Definition hookedRequestConfig : Config :=
  mkConfig None NoHeaders
           (Some (fun _ init =>
                    Resolved (init, JObj [("signal", JStr "timeout 5s");
                                          ("method", JStr "TRACE")])))
           None JUndefined.

(** A configuration with two headers and base options of its own *)
Definition authConfig : Config :=
  mkConfig None
           (StaticHeaders [("Authorization", JStr "Bearer config");
                           ("X-Trace", JStr "1")])
           None None
           (JObj [("credentials", JStr "include"); ("mode", JStr "cors")]).

(** [p.a.b. ... ] for the member names [names] *)
Definition walk (pf : Platform) (p : Proxy) (names : list string) : Proxy :=
  fold_left (fun q name => match proxy_get pf q name with
                           | SubProxy q' => q'
                           | MethodCaller _ => q
                           end) names p.

(** [p.verb(a1, a2)] *)
Definition callVerb (pf : Platform) (p : Proxy) (verb : string)
    (a1 a2 : JsValue) : Async Envelope.t :=
  match proxy_get pf p verb with
  | MethodCaller call => call a1 a2
  | SubProxy _ => ([], Rejected (JStr "not a function"))
  end.

End Reference.

(** ** The specification's wording, to compare the code with *)

Module Spec.

(** Success is a status from 200 to 299, both included. *)
Definition isSuccess (st : Z) : bool := (200 <=? st)%Z && (st <=? 299)%Z.

(** The kinds of value the query encoding rules name: scalars, arrays, plain
    objects, [null] and [undefined]. *)
Definition queryValue (v : JsValue) : bool :=
  match v with
  | JUndefined | JNull | JBool _ | JNum _ | JStr _ | JArr _ | JObj _ => true
  | _ => false
  end.

(** [options.query]: absent, or a record of such values *)
Definition query (q : JsValue) : bool :=
  match q with
  | JUndefined => true
  | JObj props => forallb (fun kv => queryValue (snd kv)) props
  | _ => false
  end.

(** "array values repeat the key once per element; plain-object values are
    JSON-encoded into a single key; scalar values are stringified;
    null/undefined values are omitted entirely" *)
Definition entryPairs (pf : Platform) (entry : string * JsValue)
  : list (string * string) :=
  let (key, value) := entry in
  match value with
  | JUndefined | JNull => []
  | JArr items => map (fun v => (key, js_String pf v)) items
  | JObj _ => [(key, JSON_stringify pf value)]
  | JBool _ | JNum _ | JStr _ => [(key, js_String pf value)]
  | _ => []
  end.

(** The query suffix: a question mark and the serialised pairs, or nothing
    when there is nothing to serialise *)
Definition querySuffix (pf : Platform) (q : JsValue) : string :=
  match q with
  | JObj props =>
      let str := URLSearchParams_toString pf (flat_map (entryPairs pf) props) in
      if str =? "" then "" else "?" ++ str
  | _ => ""
  end.

(** The response content-type dispatch table *)
Inductive MediaKind : Type :=
| Structured    (* application/json *)
| Binary        (* application/octet-stream *)
| KeyValueMap   (* multipart/form-data *)
| EventStream   (* text/event-stream *)
| Text.         (* any other type, or none *)

Definition mediaKind (r : Response) : MediaKind :=
  match Headers_get (headers r) "content-type" with
  | None => Text
  | Some ct =>
      let t := Str.beforeFirst ";" ct in
      if t =? "application/json" then Structured
      else if t =? "application/octet-stream" then Binary
      else if t =? "multipart/form-data" then KeyValueMap
      else if t =? "text/event-stream" then EventStream
      else Text
  end.

Definition settledMap {A B} (f : A -> B) (p : Promise A) : Promise B :=
  match p with
  | Resolved a => Resolved (f a)
  | Rejected e => Rejected e
  end.

(** "the content-type-appropriate parse of the response body" *)
Definition parse (r : Response) : Promise JsValue :=
  match mediaKind r with
  | Structured => json r
  | Binary => settledMap JArrayBuffer (arrayBuffer r)
  | KeyValueMap => settledMap (fun fd => JObj (Js.assign [] fd)) (formData r)
  | EventStream => Resolved (JResponse r)
  | Text => settledMap JStr (text r)
  end.

(** What stands for the parsed body of a response: the post-response hook's
    result when there is a hook and its result is neither [null] nor
    [undefined], the content-type parse otherwise *)
Definition parsedBody (config : Config) (r : Response) : Promise JsValue :=
  match config_onResponse config with
  | Some hook =>
      match hook r with
      | Resolved v => if Js.isNullish v then parse r else Resolved v
      | Rejected e => Rejected e
      end
  | None => parse r
  end.

(** The envelope of a response and of what stands for its parsed body:
    "status in [200,299]: success envelope, error = null; any other status:
    error envelope, data = null, error = {status, value: parsedBody}" *)
Definition envelopeOf (r : Response) (value : JsValue) : Envelope.t :=
  if isSuccess (status r)
  then Envelope.make value JNull (status r) r (headers r)
  else Envelope.make JNull
         (JObj [("status", JNum (status r)); ("value", value)])
         (status r) r (headers r).




(** The request initialisation of a call that sends no body: the method and
    the merged headers, overlaid by the base options of the configuration
    and by the per-call overrides *)
Definition bodilessInit (config : Config) (method : string)
    (configHeaders options : JsValue) : Obj :=
  Js.assign
    (Js.assign [("method", JStr (Str.toUpperCase method));
                ("headers", JObj (spread2 configHeaders (Js.prop options "headers")))]
               (Js.entries (config_fetchOptions config)))
    (Js.entries (Js.prop options "fetch")).

(** A returned value the pipeline merges into the context *)
Definition structured (v : JsValue) : bool :=
  Js.truthy v && Js.typeofObject v.

(** The state a function leaves to the next one: the context it was called
    on, as it left it, with the keys of what it returned written over it;
    "merge its keys onto the context immediately, visible to the next" *)
Definition merged (after : Server.PState) (returned : JsValue) : Server.PState :=
  Server.mkPState
    (Server.mergeReturned returned (Server.ps_store after) (Server.ps_ctx after))
    (Server.ps_store after).

(** [Chain fns st seen st']: called in registration order from the state
    [st], every function of [fns] resolves; [seen] lists the state each one
    was called on, which for each but the first is what its predecessor left
    merged with what it returned; [st'] is the state after the last merge. *)
Inductive Chain :
  list Server.CtxFn -> Server.PState -> list Server.PState -> Server.PState
  -> Prop :=
| Chain_nil (st : Server.PState) : Chain [] st [] st
| Chain_cons (fn : Server.CtxFn) (fns : list Server.CtxFn)
    (st after : Server.PState) (returned : JsValue)
    (seen : list Server.PState) (st' : Server.PState) :
    fn st = (after, Resolved returned) ->
    Chain fns (merged after returned) seen st' ->
    Chain (fn :: fns) st (st :: seen) st'.

(** The context once the store is attached and the decorators copied on *)
Definition seeded (decorators ctx store : Obj) : Server.PState :=
  Server.mkPState (Js.assign (Js.set "store" JStoreRef ctx) decorators) store.

End Spec.

(** ** Route registration and the route types: [addRoute], [types/utils.ts],
    [types/routes.ts] *)

From Equations Require Import Equations.

Module Routes.

Definition lowerChar (a : ascii) : ascii :=
  let n := nat_of_ascii a in
  if (65 <=? n)%nat && (n <=? 90)%nat then ascii_of_nat (n + 32) else a.

(** [s.toLowerCase()] on the ASCII letters; the methods are ASCII *)
Fixpoint toLowerCase (s : string) : string :=
  match s with
  | EmptyString => EmptyString
  | String a rest => String (lowerChar a) (toLowerCase rest)
  end.

(** What [addRoute] is given as [schemaOrHandler]: a function, or anything
    else, which is then taken for the schema *)
Inductive SchemaOrHandler : Type :=
| IsFunction (fn : Server.CtxFn)
| IsSchema (schema : JsValue).

(** A call made on the internal server, [internalServer[method](path,
    [schema], wrapped)] or [internalServer[method](path, wrapped)]:
    [route_handler] is the function [wrapHandler] was given ([None] for a
    missing [handler] argument). *)
Record Route : Type := mkRoute {
  route_method : string;
  route_path : string;
  route_middlewares : option (list JsValue);
  route_handler : option Server.CtxFn
}.

(** [this.config.prefix ? `${this.config.prefix}${path}` : path] *)
Definition fullPath (this : Server.Kito) (path : string) : string :=
  match Server.prefix this with
  | Some p => if p =? "" then path else p ++ path
  | None => path
  end.

(** [addRoute], on the list of the calls the internal server received *)
Definition addRoute (this : Server.Kito) (registered : list Route)
    (method path : string) (schemaOrHandler : SchemaOrHandler)
    (handler : option Server.CtxFn) : list Route :=
  let finalHandler :=
    match schemaOrHandler with
    | IsFunction fn => Some fn
    | IsSchema _ => handler
    end in
  let schema :=
    match schemaOrHandler with
    | IsFunction _ => JUndefined
    | IsSchema s => s
    end in
  let methodLower := toLowerCase method in
  if Js.truthy schema
  then registered
       ++ [mkRoute methodLower (fullPath this path) (Some [schema]) finalHandler]
  else registered
       ++ [mkRoute methodLower (fullPath this path) None finalHandler].

(** The type parameter [BasePath] of the instance [kito(config)] returns:
    the literal type of [config.prefix], [""] when there is none *)
Definition BasePath (this : Server.Kito) : string :=
  match Server.prefix this with
  | Some p => p
  | None => ""
  end.

(** The type [JoinPath<A, B>], on string literal types *)
Definition JoinPath (A B : string) : string :=
  if A =? "" then B
  else if B =? "" then A
  else if String.prefix "/" B then A ++ B
  else A ++ "/" ++ B.

(** [s extends `${infer Segment}/${infer Rest}`]: the text before the first
    slash and the text after it *)
Fixpoint splitSlash (s : string) : option (string * string) :=
  match s with
  | EmptyString => None
  | String c rest =>
      if Ascii.eqb c "/" then Some (EmptyString, rest)
      else match splitSlash rest with
           | Some (segment, rest') => Some (String c segment, rest')
           | None => None
           end
  end.

Lemma splitSlash_shorter (s segment rest : string) :
  splitSlash s = Some (segment, rest) ->
  (String.length rest < String.length s)%nat.
Proof.
  revert segment rest. induction s as [|c s IH]; simpl; [discriminate|].
  intros segment rest. destruct (Ascii.eqb c "/").
  - intros [= _ <-]. auto.
  - destruct (splitSlash s) as [[sg r]|]; [|discriminate].
    intros [= _ <-]. specialize (IH _ _ eq_refl). auto.
Qed.

(** A value with the proof that it is what was computed *)
Definition inspect {A : Type} (a : A) : {b : A | a = b} := exist _ a eq_refl.

(** The type [CreateRoutePath<Path, Property>]: the keys under which the
    property is nested, outermost first *)
Equations? CreateRoutePath (Path : string) : list string
  by wf (String.length Path) lt :=
  CreateRoutePath EmptyString := [];
  CreateRoutePath (String c Rest) with Ascii.eqb c "/" => {
    | true := CreateRoutePath Rest;
    | false with inspect (splitSlash (String c Rest)) => {
        | exist _ (Some (Segment, Rest')) eq := Segment :: CreateRoutePath Rest';
        | exist _ None _ := [String c Rest] } }.
Proof.
  exact (@splitSlash_shorter (String c Rest) Segment Rest' eq).
Qed.

(** A path segment with some text and no slash in it *)
Definition plainSegment (segment : string) : Prop :=
  segment <> "" /\ ~ In "/"%char (list_ascii_of_string segment).

End Routes.

(** ** Chained member lookups on the client proxy *)

(** [p.n1.n2. ... ] for the member names [names]. A verb name gives a
    caller, which has no such members: the chain ends there. *)
Fixpoint lookupChain (pf : Platform) (p : Proxy) (names : list string)
  : option Proxy :=
  match names with
  | [] => Some p
  | name :: rest =>
      match proxy_get pf p name with
      | SubProxy q => lookupChain pf q rest
      | MethodCaller _ => None
      end
  end.


(** A loop over [fns] started on [st] that stops at a rejection: the
    functions before the rejecting one resolved in order, [seen] lists the
    states the functions were called on, the rejecting one last, and [after]
    is the state the rejecting function left. *)
Definition StoppedAt (fns : list Server.CtxFn) (st : Server.PState)
    (seen : list Server.PState) (after : Server.PState) (reason : JsValue)
  : Prop :=
  exists pre fn post before reached,
    fns = pre ++ fn :: post
    /\ Spec.Chain pre st before reached
    /\ fn reached = (after, Rejected reason)
    /\ seen = before ++ [reached].

(** A derive function that turns the request away *)
Definition denyAccess : Server.CtxFn :=
  fun st => (st, Rejected (JStr "Unauthorized")).

(** A body that is one of the platform's own objects *)
Definition isPlatformObject (v : JsValue) : bool :=
  match v with
  | JBlob _ | JArrayBuffer _ | JFormData _ => true
  | _ => false
  end.

(** * Properties *)

(** ** The sources' tests, replayed *)

Section ClientTests.

Import Reference.

Let users : JsValue := JArr [JObj [("id", JStr "1"); ("name", JStr "John")]].

(** "should make GET request to correct URL" *)
Example test_get_url :
  let pf := platform (mockFetch (jsonResponse 200 users)) in
  let api := client "http://localhost:3000" noConfig in
  fetchCalls (callVerb pf (walk pf api ["users"]) "get" JUndefined JUndefined)
  = [("http://localhost:3000/users",
      [("method", JStr "GET"); ("headers", JObj [])])].
Proof. reflexivity. Qed.

(** "should make POST request with body" *)
Example test_post_body :
  let pf := platform (mockFetch (jsonResponse 201 (JObj [("created", JBool true)]))) in
  let api := client "http://localhost:3000" noConfig in
  fetchCalls (callVerb pf (walk pf api ["users"]) "post" john JUndefined)
  = [("http://localhost:3000/users",
      [("method", JStr "POST");
       ("headers", JObj [("content-type", JStr "application/json")]);
       ("body", JStr (stringify john))])].
Proof. reflexivity. Qed.

(** "should handle nested path parameters" *)
Example test_nested_params :
  let pf := platform (mockFetch (jsonResponse 200 JNull)) in
  let api := client "http://localhost:3000" noConfig in
  let posts := proxy_apply pf (walk pf api ["posts"]) [JObj [("postId", JStr "1")]] in
  let comments := proxy_apply pf (walk pf posts ["comments"]) [JObj [("commentId", JStr "2")]] in
  map fst (fetchCalls (callVerb pf comments "get" JUndefined JUndefined))
  = ["http://localhost:3000/posts/1/comments/2"].
Proof. reflexivity. Qed.

(** "should add query parameters" *)
Example test_query :
  let pf := platform (mockFetch (jsonResponse 200 (JArr []))) in
  let api := client "http://localhost:3000" noConfig in
  map fst (fetchCalls
             (callVerb pf (walk pf api ["users"]) "get"
                (JObj [("query", JObj [("limit", JStr "10"); ("offset", JStr "0")])])
                JUndefined))
  = ["http://localhost:3000/users?limit=10&offset=0"].
Proof. reflexivity. Qed.

(** "should include custom headers" *)
Example test_config_headers :
  let pf := platform (mockFetch (jsonResponse 200 (JArr []))) in
  let cfg := mkConfig None (StaticHeaders [("Authorization", JStr "Bearer token")])
                      None None JUndefined in
  let api := client "http://localhost:3000" cfg in
  map (fun c => Js.field "headers" (snd c))
      (fetchCalls (callVerb pf (walk pf api ["users"]) "get" JUndefined JUndefined))
  = [JObj [("Authorization", JStr "Bearer token")]].
Proof. reflexivity. Qed.

(** "should handle error responses" *)
Example test_error_response :
  let notFound := JObj [("message", JStr "Not found")] in
  let r := jsonResponse 404 notFound in
  let pf := platform (mockFetch r) in
  let api := client "http://localhost:3000" noConfig in
  let users := proxy_apply pf (walk pf api ["users"]) [JObj [("id", JStr "nonexistent")]] in
  settled (callVerb pf users "get" JUndefined JUndefined)
  = Resolved (Envelope.make JNull
                (JObj [("status", JNum 404); ("value", notFound)])
                404 r (headers r)).
Proof. reflexivity. Qed.

(** "should return successful response structure" *)
Example test_success_response :
  let body := JObj [("id", JStr "1"); ("name", JStr "John")] in
  let r := jsonResponse 200 body in
  let pf := platform (mockFetch r) in
  let api := client "http://localhost:3000" noConfig in
  settled (callVerb pf (walk pf api ["users"]) "get" JUndefined JUndefined)
  = Resolved (Envelope.make body JNull 200 r (headers r)).
Proof. reflexivity. Qed.

(** "should normalize domain without protocol" and
    "should use https for non-local domains" *)
Example test_normalize_domain :
  proxy_domain (client "localhost:3000" noConfig) = "http://localhost:3000"
  /\ proxy_domain (client "api.example.com" noConfig) = "https://api.example.com".
Proof. split; reflexivity. Qed.

(** "should handle text responses" *)
Example test_text_response :
  let r := textResponse 200 "Hello World" in
  let pf := platform (mockFetch r) in
  let api := client "http://localhost:3000" noConfig in
  option_map Envelope.data
    (match settled (callVerb pf (walk pf api ["health"]) "get" JUndefined JUndefined) with
     | Resolved e => Some e
     | Rejected _ => None
     end)
  = Some (JStr "Hello World").
Proof. reflexivity. Qed.

End ClientTests.

(** ** Objects: reading after writing *)

Module JsFacts.

Lemma get_set_same (key : string) (v : JsValue) (o : Obj) :
  Js.get key (Js.set key v o) = Some v.
Proof.
  induction o as [|[k w] rest IH]; simpl.
  - now rewrite String.eqb_refl.
  - destruct (k =? key) eqn:E; simpl; rewrite E; auto.
Qed.

Lemma get_set_other (key key' : string) (v : JsValue) (o : Obj) :
  key <> key' -> Js.get key' (Js.set key v o) = Js.get key' o.
Proof.
  intros Hne. induction o as [|[k w] rest IH]; simpl.
  - destruct (key =? key') eqn:E; auto.
    apply String.eqb_eq in E. contradiction.
  - destruct (k =? key) eqn:E; simpl.
    + apply String.eqb_eq in E. subst k.
      destruct (key =? key') eqn:E'; auto.
      apply String.eqb_eq in E'. contradiction.
    + destruct (k =? key'); auto.
Qed.

Lemma get_app (key : string) (o1 o2 : Obj) :
  Js.get key (o1 ++ o2)
  = match Js.get key o1 with
    | Some v => Some v
    | None => Js.get key o2
    end.
Proof.
  induction o1 as [|[k w] rest IH]; simpl; auto.
  destruct (k =? key); auto.
Qed.

(** After [Object.assign(target, source)] a key holds what the source wrote
    to it last, and what the target held when the source has no such key. *)
Lemma get_assign (key : string) (source target : Obj) :
  Js.get key (Js.assign target source)
  = match Js.get key (rev source) with
    | Some v => Some v
    | None => Js.get key target
    end.
Proof.
  unfold Js.assign. revert target.
  induction source as [|[k v] rest IH]; intros target; simpl; auto.
  rewrite IH, get_app. destruct (Js.get key (rev rest)); auto.
  simpl. destruct (k =? key) eqn:E.
  - apply String.eqb_eq in E. subst k. apply get_set_same.
  - apply get_set_other. intros ->. now rewrite String.eqb_refl in E.
Qed.

Lemma keys_set (key : string) (v : JsValue) (o : Obj) :
  map fst (Js.set key v o)
  = if existsb (String.eqb key) (map fst o) then map fst o
    else map fst o ++ [key].
Proof.
  induction o as [|[k w] rest IH]; simpl; auto.
  rewrite (String.eqb_sym key k).
  destruct (k =? key) eqn:E; simpl; auto.
  rewrite IH. destruct (existsb (String.eqb key) (map fst rest)); auto.
Qed.

Lemma existsb_eqb_In (key : string) (ks : list string) :
  existsb (String.eqb key) ks = true <-> In key ks.
Proof.
  rewrite existsb_exists. split.
  - intros (x & Hin & E). apply String.eqb_eq in E. now subst.
  - intros Hin. exists key. split; auto. apply String.eqb_refl.
Qed.

(** Writing a property keeps the keys of an object distinct. *)
Lemma NoDup_set (key : string) (v : JsValue) (o : Obj) :
  NoDup (map fst o) -> NoDup (map fst (Js.set key v o)).
Proof.
  intros Hnd. rewrite keys_set.
  destruct (existsb (String.eqb key) (map fst o)) eqn:E; auto.
  apply NoDup_app; auto.
  - constructor; [intros [] | constructor].
  - intros x Hin [<-|[]].
    apply existsb_eqb_In in Hin. congruence.
Qed.

Lemma NoDup_assign (target source : Obj) :
  NoDup (map fst target) -> NoDup (map fst (Js.assign target source)).
Proof.
  unfold Js.assign. revert target.
  induction source as [|[k v] rest IH]; intros target Hnd; simpl; auto.
  apply IH. now apply NoDup_set.
Qed.

(** In an object with distinct keys, the first and the last binding of a key
    are the same one. *)
Lemma get_rev (key : string) (o : Obj) :
  NoDup (map fst o) -> Js.get key (rev o) = Js.get key o.
Proof.
  induction o as [|[k v] rest IH]; simpl; auto.
  intros Hnd. inversion Hnd as [|? ? Hnotin Hnd']; subst.
  rewrite get_app, IH by assumption. simpl.
  destruct (k =? key) eqn:E.
  - apply String.eqb_eq in E. subst k.
    destruct (Js.get key rest) eqn:G; auto.
    exfalso. apply Hnotin. clear - G.
    induction rest as [|[k' w] r IHr]; simpl in *; [discriminate|].
    destruct (k' =? key) eqn:E'.
    + left. now apply String.eqb_eq.
    + right. auto.
  - destruct (Js.get key rest); auto.
Qed.

End JsFacts.

(** ** The stages of a client call *)

Section ClientStages.

Variable pf : Platform.

Lemma runOnRequest_no_call (config : Config) (path : string) (init : Obj) :
  fetchCalls (runOnRequest config path init) = [].
Proof.
  unfold runOnRequest. destruct (config_onRequest config) as [hook|]; auto.
  unfold bind, await, fetchCalls. destruct (hook path init) as [[i m]|e]; auto.
Qed.

Lemma handleResponse_no_call (config : Config) (r : Response) :
  fetchCalls (handleResponse config r) = [].
Proof.
  unfold handleResponse.
  destruct (config_onResponse config) as [hook|]; simpl.
  - destruct (hook r) as [v|e]; simpl; auto.
    destruct (Js.isNull (if Js.isNullish v then JNull else v)); simpl; auto.
    destruct (parseResponse r); auto.
  - destruct (parseResponse r); auto.
Qed.

(** A call, stage by stage: the header source settles, the request is
    initialised and goes through the [onRequest] hook, the network primitive
    is called once, and its response is turned into the envelope. A rejection
    at a stage ends the call there. *)
Lemma createMethodCaller_stages (domain : string) (config : Config)
    (paths : list string) (method : string) (a1 a2 : JsValue) :
  createMethodCaller pf domain config paths method a1 a2
  = match resolveHeaders (config_headers config) with
    | Rejected e => ([], Rejected e)
    | Resolved configHeaders =>
        let init0 :=
          buildInit pf config method configHeaders
                    (actualOptionsOf method a1 a2) (bodyOf method a1)
                    (isGetOrHead method) in
        match settled (runOnRequest config (pathOf paths) init0) with
        | Rejected e => ([], Rejected e)
        | Resolved init =>
            let url := requestUrl pf domain paths (actualOptionsOf method a1 a2) in
            ([(url, init)],
             match fetcherOf pf config url init with
             | Rejected e => Rejected e
             | Resolved r => settled (handleResponse config r)
             end)
        end
    end.
Proof.
  unfold createMethodCaller, actualOptionsOf, bodyOf, isGetOrHead, pathOf,
    fetcherOf.
  destruct (resolveHeaders (config_headers config)) as [ch|e]; simpl; auto.
  match goal with
  | |- context [runOnRequest config ?p ?i] =>
      pose proof (runOnRequest_no_call config p i) as Hno;
      destruct (runOnRequest config p i) as [calls [init|e]]
  end; simpl in *; subst calls; auto.
  match goal with
  | |- context [match ?x with Resolved _ => settled _ | Rejected _ => _ end] =>
      destruct x as [r|e]
  end; simpl; auto.
  pose proof (handleResponse_no_call config r) as Hno.
  destruct (handleResponse config r) as [calls res]; simpl in *.
  now subst calls.
Qed.

End ClientStages.

(** ** C3: the URL of the request *)

Section RequestUrl.

Variable pf : Platform.

Lemma append_assoc (a b c : string) : ((a ++ b) ++ c = a ++ b ++ c)%string.
Proof. induction a as [|x a IH]; simpl; [reflexivity | now rewrite IH]. Qed.

Lemma append_empty_r (a : string) : (a ++ "" = a)%string.
Proof. induction a as [|x a IH]; simpl; [reflexivity | now rewrite IH]. Qed.

(** The inner loop of [buildQueryString] appends one pair per element. *)
Lemma append_array_items (key : string) (items : list JsValue)
    (params : list (string * string)) :
  fold_left (fun ps v => ps ++ [(key, js_String pf v)]) items params
  = params ++ map (fun v => (key, js_String pf v)) items.
Proof.
  revert params. induction items as [|v rest IH]; intros params; simpl.
  - now rewrite app_nil_r.
  - rewrite IH, <- app_assoc. reflexivity.
Qed.

Lemma appendQueryEntry_spec (params : list (string * string))
    (entry : string * JsValue) :
  Spec.queryValue (snd entry) = true ->
  appendQueryEntry pf params entry = params ++ Spec.entryPairs pf entry.
Proof.
  destruct entry as [key value]. simpl.
  destruct value; simpl; intros Hv; try discriminate;
    rewrite ?app_nil_r; auto using append_array_items.
Qed.

(** The outer loop builds the pairs the specification lists. *)
Lemma queryLoop_spec (props : Obj) (params : list (string * string)) :
  forallb (fun kv => Spec.queryValue (snd kv)) props = true ->
  fold_left (appendQueryEntry pf) props params
  = params ++ flat_map (Spec.entryPairs pf) props.
Proof.
  revert params. induction props as [|entry rest IH]; intros params; simpl.
  - now rewrite app_nil_r.
  - intros Hall. apply andb_prop in Hall as [Hv Hrest].
    rewrite appendQueryEntry_spec, IH, <- app_assoc by assumption.
    reflexivity.
Qed.

Lemma requestUrl_spec (domain : string) (paths : list string)
    (options : JsValue) :
  Spec.query (Js.prop options "query") = true ->
  requestUrl pf domain paths options
  = (domain ++ "/" ++ Str.join "/" paths
       ++ Spec.querySuffix pf (Js.prop options "query"))%string.
Proof.
  unfold requestUrl. intros Hq.
  destruct (Js.prop options "query") as [| | | | | |props| | | | |];
    simpl in Hq; try discriminate; simpl.
  - rewrite append_empty_r. reflexivity.
  - unfold buildQueryString. simpl.
    rewrite queryLoop_spec by assumption. simpl.
    rewrite !append_assoc. reflexivity.
Qed.

(** C3. Whatever the verb and the accumulated segments, every call made on
    the network primitive has the URL [domain + "/" + join(S, "/")] followed by
    the query suffix of [options.query]: one pair per element of an array
    value, one JSON-encoded pair for a plain-object value, one stringified
    pair for a scalar, none for [null] and [undefined]. *)
Theorem C3_request_url (domain : string) (config : Config)
    (paths : list string) (method : string) (a1 a2 : JsValue)
    (call : string * Obj) :
  Spec.query (Js.prop (actualOptionsOf method a1 a2) "query") = true ->
  In call (fetchCalls (createMethodCaller pf domain config paths method a1 a2)) ->
  fst call
  = (domain ++ "/" ++ Str.join "/" paths
       ++ Spec.querySuffix pf (Js.prop (actualOptionsOf method a1 a2) "query"))%string.
Proof.
  intros Hq Hin. rewrite createMethodCaller_stages in Hin.
  destruct (resolveHeaders (config_headers config)) as [ch|e]; [|destruct Hin].
  cbv zeta in Hin.
  destruct (settled (runOnRequest config (pathOf paths) _)) as [init|e];
    [|destruct Hin].
  destruct Hin as [<-|[]]. simpl. now apply requestUrl_spec.
Qed.

End RequestUrl.

(** The call of the test "should add query parameters", with an array and a
    [null] added to the query *)
Lemma C3_request_url_witness :
  fst ("http://localhost:3000/users?limit=10&tag=a&tag=b",
       [("method", JStr "GET"); ("headers", JObj [])])
  = ("http://localhost:3000" ++ "/" ++ Str.join "/" ["users"]
       ++ Spec.querySuffix
            (Reference.platform (Reference.mockFetch (Reference.jsonResponse 200 JNull)))
            (JObj [("limit", JNum 10); ("skip", JNull);
                   ("tag", JArr [JStr "a"; JStr "b"])]))%string.
Proof.
  apply (C3_request_url
           (Reference.platform (Reference.mockFetch (Reference.jsonResponse 200 JNull)))
           "http://localhost:3000" Reference.noConfig ["users"] "get"
           (JObj [("query", JObj [("limit", JNum 10); ("skip", JNull);
                                  ("tag", JArr [JStr "a"; JStr "b"])])])
           JUndefined).
  - reflexivity.
  - left. reflexivity.
Defined.

(** ** C1, C2, C9: from the response to the envelope *)

Section ResultEnvelope.

Variable pf : Platform.

(** [parseResponse] follows the dispatch table. *)
Lemma parseResponse_spec (r : Response) : parseResponse r = Spec.parse r.
Proof.
  unfold parseResponse, Spec.parse, Spec.mediaKind.
  destruct (Headers_get (headers r) "content-type") as [ct|]; simpl.
  - destruct (Str.beforeFirst ";" ct =? "application/json"); [reflexivity|].
    destruct (Str.beforeFirst ";" ct =? "application/octet-stream");
      [reflexivity|].
    destruct (Str.beforeFirst ";" ct =? "multipart/form-data"); [reflexivity|].
    destruct (Str.beforeFirst ";" ct =? "text/event-stream"); reflexivity.
  - reflexivity.
Qed.

Lemma error_status_test (st : Z) :
  ((st >=? 300) || (st <? 200))%Z = negb (Spec.isSuccess st).
Proof.
  unfold Spec.isSuccess.
  destruct (st >=? 300)%Z eqn:A, (st <? 200)%Z eqn:B,
           (200 <=? st)%Z eqn:C, (st <=? 299)%Z eqn:D; simpl; auto; lia.
Qed.

Lemma handleResponse_settled (config : Config) (r : Response) :
  settled (handleResponse config r)
  = Spec.settledMap (Spec.envelopeOf r) (Spec.parsedBody config r).
Proof.
  unfold handleResponse, Spec.parsedBody, Spec.envelopeOf.
  rewrite error_status_test, <- parseResponse_spec.
  destruct (config_onResponse config) as [hook|]; simpl.
  - destruct (hook r) as [v|e]; simpl; [|reflexivity].
    destruct (Js.isNullish v) eqn:N; simpl.
    + destruct (parseResponse r); simpl; [|reflexivity].
      destruct (Spec.isSuccess (status r)); reflexivity.
    + assert (Js.isNull v = false) as -> by (destruct v; auto; discriminate).
      simpl. destruct (Spec.isSuccess (status r)); reflexivity.
  - destruct (parseResponse r); simpl; [|reflexivity].
    destruct (Spec.isSuccess (status r)); reflexivity.
Qed.

(** A call that returns an envelope called the network primitive, which
    resolved to a response, and the envelope is the one of that response. *)
Lemma returned_envelope (domain : string) (config : Config)
    (paths : list string) (method : string) (a1 a2 : JsValue)
    (env : Envelope.t) :
  settled (createMethodCaller pf domain config paths method a1 a2)
  = Resolved env ->
  exists call r value,
    In call (fetchCalls (createMethodCaller pf domain config paths method a1 a2))
    /\ fetcherOf pf config (fst call) (snd call) = Resolved r
    /\ Spec.parsedBody config r = Resolved value
    /\ env = Spec.envelopeOf r value.
Proof.
  rewrite createMethodCaller_stages.
  destruct (resolveHeaders (config_headers config)) as [ch|e];
    [|discriminate].
  cbv zeta.
  destruct (settled (runOnRequest config (pathOf paths) _)) as [init|e];
    [|discriminate].
  unfold settled at 1, fetchCalls. simpl fst. simpl snd.
  destruct (fetcherOf pf config _ init) as [r|e] eqn:F; [|discriminate].
  rewrite handleResponse_settled.
  destruct (Spec.parsedBody config r) as [value|e] eqn:P; [|discriminate].
  simpl. intros [= <-].
  eexists (_, init), r, value. simpl. repeat split; eauto.
Qed.

(** Conversely, a call none of whose stages rejects returns that envelope. *)
Lemma createMethodCaller_returns (domain : string) (config : Config)
    (paths : list string) (method : string) (a1 a2 : JsValue)
    (configHeaders : JsValue) (init : Obj) (r : Response) (value : JsValue) :
  resolveHeaders (config_headers config) = Resolved configHeaders ->
  settled (runOnRequest config (pathOf paths)
             (buildInit pf config method configHeaders
                (actualOptionsOf method a1 a2) (bodyOf method a1)
                (isGetOrHead method)))
  = Resolved init ->
  fetcherOf pf config (requestUrl pf domain paths (actualOptionsOf method a1 a2))
            init
  = Resolved r ->
  Spec.parsedBody config r = Resolved value ->
  createMethodCaller pf domain config paths method a1 a2
  = ([(requestUrl pf domain paths (actualOptionsOf method a1 a2), init)],
     Resolved (Spec.envelopeOf r value)).
Proof.
  intros Hh Hi Hf Hp. rewrite createMethodCaller_stages, Hh. cbv zeta.
  rewrite Hi, Hf, handleResponse_settled, Hp. reflexivity.
Qed.

End ResultEnvelope.

Section EnvelopeClaims.

Variable pf : Platform.

(** C1, as amended. For every client call that returns an envelope: the
    network primitive was called and resolved to a response [r]; what stands
    for the parsed body is the post-response hook's result when a hook is
    configured and returns neither [null] nor [undefined], and otherwise the
    content-type-appropriate parse of the body (application/json: structured
    decode, application/octet-stream: raw binary, multipart/form-data:
    key/value map, text/event-stream: the response itself, anything else:
    text); with a status in [200,299] the envelope has [error = null] and that
    value as [data], with any other status it has [data = null] and
    [error = {status, value}]. *)
Theorem C1_envelope_classification (domain : string) (config : Config)
    (paths : list string) (method : string) (a1 a2 : JsValue)
    (env : Envelope.t) :
  settled (createMethodCaller pf domain config paths method a1 a2)
  = Resolved env ->
  exists call r value,
    In call (fetchCalls (createMethodCaller pf domain config paths method a1 a2))
    /\ fetcherOf pf config (fst call) (snd call) = Resolved r
    /\ Spec.parsedBody config r = Resolved value
    /\ (config_onResponse config = None -> Spec.parse r = Resolved value)
    /\ (Spec.isSuccess (status r) = true ->
        Envelope.error env = JNull /\ Envelope.data env = value)
    /\ (Spec.isSuccess (status r) = false ->
        Envelope.data env = JNull
        /\ Envelope.error env
           = JObj [("status", JNum (status r)); ("value", value)]).
Proof.
  intros Hret.
  destruct (returned_envelope _ _ _ _ _ _ _ Hret)
    as (call & r & value & Hin & Hf & Hp & ->).
  exists call, r, value. split; [exact Hin|]. split; [exact Hf|].
  split; [exact Hp|]. split; [|split].
  - intros Hnone. unfold Spec.parsedBody in Hp. now rewrite Hnone in Hp.
  - intros Hs. unfold Spec.envelopeOf. rewrite Hs. split; reflexivity.
  - intros Hs. unfold Spec.envelopeOf. rewrite Hs. split; reflexivity.
Qed.

(** C2, as amended. Every returned envelope carries the status, the raw
    response and the headers of the response the network primitive resolved
    to; at most one of [data] and [error] is non-null; [error] is non-null
    exactly when the status is outside [200,299], and then [data] is null; on
    success [data] is the parsed value, whatever it is. *)
Theorem C2_envelope_shape (domain : string) (config : Config)
    (paths : list string) (method : string) (a1 a2 : JsValue)
    (env : Envelope.t) :
  settled (createMethodCaller pf domain config paths method a1 a2)
  = Resolved env ->
  (exists call,
      In call (fetchCalls (createMethodCaller pf domain config paths method a1 a2))
      /\ fetcherOf pf config (fst call) (snd call)
         = Resolved (Envelope.response env))
  /\ Envelope.status env = status (Envelope.response env)
  /\ Envelope.headers env = headers (Envelope.response env)
  /\ (Js.isNull (Envelope.data env) = true
      \/ Js.isNull (Envelope.error env) = true)
  /\ Js.isNull (Envelope.error env) = Spec.isSuccess (Envelope.status env)
  /\ (Spec.isSuccess (Envelope.status env) = false ->
      Envelope.data env = JNull)
  /\ (Spec.isSuccess (Envelope.status env) = true ->
      Spec.parsedBody config (Envelope.response env)
      = Resolved (Envelope.data env)).
Proof.
  intros Hret.
  destruct (returned_envelope _ _ _ _ _ _ _ Hret)
    as (call & r & value & Hin & Hf & Hp & ->).
  unfold Spec.envelopeOf.
  destruct (Spec.isSuccess (status r)) eqn:S; simpl; rewrite ?S;
    repeat split; eauto; discriminate.
Qed.

(** C9. When the network primitive rejects the call made on it, the client
    call rejects with the same reason: it settles to no envelope. *)
Theorem C9_transport_rejection (domain : string) (config : Config)
    (paths : list string) (method : string) (a1 a2 : JsValue)
    (call : string * Obj) (reason : JsValue) :
  In call (fetchCalls (createMethodCaller pf domain config paths method a1 a2)) ->
  fetcherOf pf config (fst call) (snd call) = Rejected reason ->
  settled (createMethodCaller pf domain config paths method a1 a2)
  = Rejected reason
  /\ forall env,
       settled (createMethodCaller pf domain config paths method a1 a2)
       <> Resolved env.
Proof.
  intros Hin Hrej. rewrite createMethodCaller_stages in *.
  destruct (resolveHeaders (config_headers config)) as [ch|e]; [|destruct Hin].
  cbv zeta in *.
  destruct (settled (runOnRequest config (pathOf paths) _)) as [init|e];
    [|destruct Hin].
  destruct Hin as [<-|[]]. simpl in *. rewrite Hrej.
  split; [reflexivity | discriminate].
Qed.

End EnvelopeClaims.

(** A 200 response on [GET /users]: the envelope is the success one. *)
Lemma C1_envelope_classification_witness :
  let body := JObj [("id", JStr "1")] in
  let r0 := Reference.jsonResponse 200 body in
  let pf := Reference.platform (Reference.mockFetch r0) in
  let env := Spec.envelopeOf r0 body in
  exists call r value,
    In call (fetchCalls (createMethodCaller pf "http://localhost:3000"
                           Reference.noConfig ["users"] "get"
                           JUndefined JUndefined))
    /\ fetcherOf pf Reference.noConfig (fst call) (snd call) = Resolved r
    /\ Spec.parsedBody Reference.noConfig r = Resolved value
    /\ (config_onResponse Reference.noConfig = None ->
        Spec.parse r = Resolved value)
    /\ (Spec.isSuccess (status r) = true ->
        Envelope.error env = JNull /\ Envelope.data env = value)
    /\ (Spec.isSuccess (status r) = false ->
        Envelope.data env = JNull
        /\ Envelope.error env
           = JObj [("status", JNum (status r)); ("value", value)]).
Proof.
  exact (@C1_envelope_classification
           (Reference.platform
              (Reference.mockFetch
                 (Reference.jsonResponse 200 (JObj [("id", JStr "1")]))))
           "http://localhost:3000" Reference.noConfig ["users"] "get"
           JUndefined JUndefined
           (Spec.envelopeOf
              (Reference.jsonResponse 200 (JObj [("id", JStr "1")]))
              (JObj [("id", JStr "1")]))
           eq_refl).
Defined.

(** The claim as first stated fails when a post-response hook returns a
    value: on a 200 response with a JSON body, [data] is the hook's value and
    not the decoded body. *)
Lemma C1_counterexample :
  let body := JObj [("id", JStr "1")] in
  let r := Reference.jsonResponse 200 body in
  settled (createMethodCaller (Reference.platform (Reference.mockFetch r))
             "http://localhost:3000" Reference.hookConfig ["users"] "get"
             JUndefined JUndefined)
  = Resolved (Envelope.make (JStr "from hook") JNull 200 r (headers r))
  /\ Spec.parse r = Resolved body.
Proof. split; reflexivity. Qed.

(** A 404 response: the envelope carries it, with [data] null. *)
Lemma C2_envelope_shape_witness :
  let r := Reference.jsonResponse 404 (JObj [("message", JStr "Not found")]) in
  let pf := Reference.platform (Reference.mockFetch r) in
  let env := Spec.envelopeOf r (JObj [("message", JStr "Not found")]) in
  (exists call,
      In call (fetchCalls (createMethodCaller pf "http://localhost:3000"
                             Reference.noConfig ["users"] "get"
                             JUndefined JUndefined))
      /\ fetcherOf pf Reference.noConfig (fst call) (snd call)
         = Resolved (Envelope.response env))
  /\ Envelope.status env = status (Envelope.response env)
  /\ Envelope.headers env = headers (Envelope.response env)
  /\ (Js.isNull (Envelope.data env) = true
      \/ Js.isNull (Envelope.error env) = true)
  /\ Js.isNull (Envelope.error env) = Spec.isSuccess (Envelope.status env)
  /\ (Spec.isSuccess (Envelope.status env) = false ->
      Envelope.data env = JNull)
  /\ (Spec.isSuccess (Envelope.status env) = true ->
      Spec.parsedBody Reference.noConfig (Envelope.response env)
      = Resolved (Envelope.data env)).
Proof.
  exact (@C2_envelope_shape
           (Reference.platform
              (Reference.mockFetch
                 (Reference.jsonResponse 404
                    (JObj [("message", JStr "Not found")]))))
           "http://localhost:3000" Reference.noConfig ["users"] "get"
           JUndefined JUndefined
           (Spec.envelopeOf
              (Reference.jsonResponse 404
                 (JObj [("message", JStr "Not found")]))
              (JObj [("message", JStr "Not found")]))
           eq_refl).
Defined.

(** The claim as first stated fails on a 200 response whose JSON body is
    [null]: the envelope has [data] and [error] both null. *)
Lemma C2_counterexample :
  let r := Reference.jsonResponse 200 JNull in
  settled (createMethodCaller (Reference.platform (Reference.mockFetch r))
             "http://localhost:3000" Reference.noConfig ["users"] "get"
             JUndefined JUndefined)
  = Resolved (Envelope.make JNull JNull 200 r (headers r)).
Proof. reflexivity. Qed.

(** A network primitive that refuses the connection *)
Lemma C9_transport_rejection_witness :
  let pf := Reference.platform Reference.failingFetch in
  settled (createMethodCaller pf "http://localhost:3000" Reference.noConfig
             ["users"] "get" JUndefined JUndefined)
  = Rejected (JStr "connection refused")
  /\ forall env,
       settled (createMethodCaller pf "http://localhost:3000" Reference.noConfig
                  ["users"] "get" JUndefined JUndefined)
       <> Resolved env.
Proof.
  apply (C9_transport_rejection
           (Reference.platform Reference.failingFetch)
           "http://localhost:3000" Reference.noConfig ["users"] "get"
           JUndefined JUndefined
           ("http://localhost:3000/users",
            [("method", JStr "GET"); ("headers", JObj [])])).
  - left. reflexivity.
  - reflexivity.
Defined.

(** ** C7, C8, C10: the request initialisation *)

Section RequestInit.

Variable pf : Platform.

(** The request of a call that reached the network primitive: the header
    source resolved, and the call carries what the [onRequest] stage made of
    the initialisation built from the arguments. *)
Lemma issued_request (domain : string) (config : Config)
    (paths : list string) (method : string) (a1 a2 : JsValue)
    (call : string * Obj) :
  In call (fetchCalls (createMethodCaller pf domain config paths method a1 a2)) ->
  exists configHeaders,
    resolveHeaders (config_headers config) = Resolved configHeaders
    /\ fst call = requestUrl pf domain paths (actualOptionsOf method a1 a2)
    /\ settled (runOnRequest config (pathOf paths)
                  (buildInit pf config method configHeaders
                     (actualOptionsOf method a1 a2) (bodyOf method a1)
                     (isGetOrHead method)))
       = Resolved (snd call).
Proof.
  intros Hin. rewrite createMethodCaller_stages in Hin.
  destruct (resolveHeaders (config_headers config)) as [ch|e]; [|destruct Hin].
  cbv zeta in Hin. exists ch. split; [reflexivity|].
  destruct (settled (runOnRequest config (pathOf paths) _)) as [init|e];
    [|destruct Hin].
  destruct Hin as [<-|[]]. split; reflexivity.
Qed.

Lemma runOnRequest_without_hook (config : Config) (path : string)
    (init init' : Obj) :
  config_onRequest config = None ->
  settled (runOnRequest config path init) = Resolved init' ->
  init' = init.
Proof.
  unfold runOnRequest. intros ->. simpl. now intros [= ->].
Qed.

Lemma buildInit_without_body (config : Config) (method : string)
    (configHeaders options body : JsValue) (getOrHead : bool) :
  Js.isNullish body = true \/ getOrHead = true ->
  buildInit pf config method configHeaders options body getOrHead
  = Spec.bodilessInit config method configHeaders options.
Proof.
  unfold buildInit, Spec.bodilessInit. intros [-> | ->]; simpl;
    rewrite ?andb_false_r; reflexivity.
Qed.

Lemma buildInit_with_body (config : Config) (method : string)
    (configHeaders options body : JsValue) :
  Js.isNullish body = false ->
  buildInit pf config method configHeaders options body false
  = encodeBody pf body (Spec.bodilessInit config method configHeaders options).
Proof.
  unfold buildInit, Spec.bodilessInit. intros ->. reflexivity.
Qed.







End RequestInit.

Section RequestInitClaims.

Variable pf : Platform.



(** Copying an object whose keys are distinct gives the same object. *)
Lemma assign_fresh (source target : Obj) :
  NoDup (map fst (target ++ source)) ->
  Js.assign target source = target ++ source.
Proof.
  unfold Js.assign. revert target.
  induction source as [|[k v] rest IH]; intros target Hnd; simpl.
  - now rewrite app_nil_r.
  - assert (Js.set k v target = target ++ [(k, v)]) as ->.
    { rewrite map_app in Hnd. simpl in Hnd.
      apply NoDup_remove_2 in Hnd.
      assert (~ In k (map fst target)) as Hk
          by (intros Hin; apply Hnd, in_or_app; now left).
      clear - Hk. induction target as [|[k' w] t IHt]; simpl; auto.
      destruct (k' =? k) eqn:E.
      - apply String.eqb_eq in E. subst. exfalso. apply Hk. now left.
      - rewrite IHt; auto. intros Hin. apply Hk. now right. }
    rewrite IH; rewrite <- app_assoc; simpl; auto.
Qed.

Lemma spread2_distinct (a b : JsValue) : NoDup (map fst (spread2 a b)).
Proof.
  unfold spread2. apply JsFacts.NoDup_assign, JsFacts.NoDup_assign.
  constructor.
Qed.

(** What the initialisation without a body holds under a key that neither
    the base options nor the per-call overrides write *)
Lemma bodilessInit_get (config : Config) (method : string)
    (configHeaders options : JsValue) (key : string) :
  Js.get key (rev (Js.entries (config_fetchOptions config))) = None ->
  Js.get key (rev (Js.entries (Js.prop options "fetch"))) = None ->
  Js.get key (Spec.bodilessInit config method configHeaders options)
  = Js.get key [("method", JStr (Str.toUpperCase method));
                ("headers",
                 JObj (spread2 configHeaders (Js.prop options "headers")))].
Proof.
  intros Hbase Hcall. unfold Spec.bodilessInit.
  now rewrite !JsFacts.get_assign, Hcall, Hbase.
Qed.



(** C8, as amended. On [get] and [head] the first argument is the options
    object and the second is not read; the body step is skipped, so the
    initialisation is the method and the merged headers overlaid by the base
    options and the per-call overrides: it has a body, or headers other than
    the merged ones, only if those options or overrides (or the pre-request
    hook) supply them. On every other verb the first argument is the body and
    the second the options. *)
Theorem C8_get_head_options (domain : string) (config : Config)
    (paths : list string) (method : string) (a1 a2 : JsValue)
    (call : string * Obj) :
  In call (fetchCalls (createMethodCaller pf domain config paths method a1 a2)) ->
  if isGetOrHead method then
    createMethodCaller pf domain config paths method a1 a2
    = createMethodCaller pf domain config paths method a1 JUndefined
    /\ fst call = requestUrl pf domain paths a1
    /\ exists configHeaders,
         resolveHeaders (config_headers config) = Resolved configHeaders
         /\ let plain := Spec.bodilessInit config method configHeaders a1 in
            settled (runOnRequest config (pathOf paths) plain)
            = Resolved (snd call)
            /\ (config_onRequest config = None -> snd call = plain)
            /\ (Js.get "body" (rev (Js.entries (config_fetchOptions config)))
                = None ->
                Js.get "body" (rev (Js.entries (Js.prop a1 "fetch"))) = None ->
                Js.get "body" plain = None)
            /\ (Js.get "headers" (rev (Js.entries (config_fetchOptions config)))
                = None ->
                Js.get "headers" (rev (Js.entries (Js.prop a1 "fetch")))
                = None ->
                Js.get "headers" plain
                = Some (JObj (spread2 configHeaders (Js.prop a1 "headers"))))
  else
    fst call = requestUrl pf domain paths a2
    /\ exists configHeaders,
         resolveHeaders (config_headers config) = Resolved configHeaders
         /\ settled (runOnRequest config (pathOf paths)
                       (buildInit pf config method configHeaders a2 a1 false))
            = Resolved (snd call).
Proof.
  intros Hin.
  destruct (issued_request _ _ _ _ _ _ _ _ Hin) as (ch & Hh & Hurl & Hrun).
  unfold actualOptionsOf, bodyOf in *.
  destruct (isGetOrHead method) eqn:Hverb.
  - split; [|split; [exact Hurl|]].
    + unfold createMethodCaller. unfold isGetOrHead in Hverb.
      rewrite Hverb. reflexivity.
    + exists ch. split; [exact Hh|]. cbv zeta.
      rewrite buildInit_without_body in Hrun by now right.
      split; [exact Hrun|]. repeat split.
      * intros Hnone. eapply runOnRequest_without_hook; eauto.
      * intros Hbase Hcall. now rewrite bodilessInit_get.
      * intros Hbase Hcall. now rewrite bodilessInit_get.
  - split; [exact Hurl|]. exists ch. split; [exact Hh | exact Hrun].
Qed.

End RequestInitClaims.





(** [GET /users] with a query: the first argument is the options. *)
Lemma C8_get_head_options_witness :
  let a1 := JObj [("query", JObj [("limit", JStr "10")])] in
  let call :=
    ("http://localhost:3000/users?limit=10",
     [("method", JStr "GET"); ("headers", JObj [])]) in
  createMethodCaller Reference.okPlatform "http://localhost:3000"
    Reference.noConfig ["users"] "get" a1 Reference.john
  = createMethodCaller Reference.okPlatform "http://localhost:3000"
      Reference.noConfig ["users"] "get" a1 JUndefined
  /\ fst call
     = requestUrl Reference.okPlatform "http://localhost:3000" ["users"] a1
  /\ exists configHeaders,
       resolveHeaders (config_headers Reference.noConfig)
       = Resolved configHeaders
       /\ let plain :=
            Spec.bodilessInit Reference.noConfig "get" configHeaders a1 in
          settled (runOnRequest Reference.noConfig (pathOf ["users"]) plain)
          = Resolved (snd call)
          /\ (config_onRequest Reference.noConfig = None -> snd call = plain)
          /\ (Js.get "body"
                (rev (Js.entries (config_fetchOptions Reference.noConfig)))
              = None ->
              Js.get "body" (rev (Js.entries (Js.prop a1 "fetch"))) = None ->
              Js.get "body" plain = None)
          /\ (Js.get "headers"
                (rev (Js.entries (config_fetchOptions Reference.noConfig)))
              = None ->
              Js.get "headers" (rev (Js.entries (Js.prop a1 "fetch")))
              = None ->
              Js.get "headers" plain
              = Some (JObj (spread2 configHeaders (Js.prop a1 "headers")))).
Proof.
  apply (@C8_get_head_options Reference.okPlatform "http://localhost:3000"
           Reference.noConfig ["users"] "get"
           (JObj [("query", JObj [("limit", JStr "10")])]) Reference.john
           ("http://localhost:3000/users?limit=10",
            [("method", JStr "GET"); ("headers", JObj [])])).
  left. reflexivity.
Defined.

(** The claim as first stated fails on a [GET] whose first argument carries
    per-call headers and overrides: the issued request has the content-type
    and the body they supply. *)
Lemma C8_counterexample :
  fetchCalls
    (createMethodCaller Reference.okPlatform "http://localhost:3000"
       Reference.noConfig ["users"] "get"
       (JObj [("headers", JObj [("content-type", JStr "application/json")]);
              ("fetch", JObj [("body", JStr "payload")])])
       JUndefined)
  = [("http://localhost:3000/users",
      [("method", JStr "GET");
       ("headers", JObj [("content-type", JStr "application/json")]);
       ("body", JStr "payload")])].
Proof. reflexivity. Qed.

(** ** C6: the domain the client is given *)

(** The examples of the documentation: a scheme is kept, one trailing slash
    is removed. *)
Example client_keeps_scheme :
  proxy_domain (client "http://localhost:3000" Reference.noConfig)
  = "http://localhost:3000"
  /\ proxy_domain (client "localhost:3000/" Reference.noConfig)
     = "http://localhost:3000"
  /\ proxy_domain (client "api.example.com/" Reference.noConfig)
     = "https://api.example.com"
  /\ proxy_domain (client "api.example.com//" Reference.noConfig)
     = "https://api.example.com/".
Proof. repeat split; reflexivity. Qed.

(** C6. The host of [notlocalhost.example.com] is none of the local hosts,
    and the domain is given [http://] all the same: the test is whether the
    domain string contains a local host name, not whether its host is one. *)
Theorem C6_local_host_by_substring :
  proxy_domain (client "notlocalhost.example.com" Reference.noConfig)
  = "http://notlocalhost.example.com"
  /\ proxy_domain (client "api.example.com/v1/localhost" Reference.noConfig)
     = "http://api.example.com/v1/localhost"
  /\ existsb (String.eqb "notlocalhost.example.com") LOCAL_HOSTS = false.
Proof. repeat split; reflexivity. Qed.

(** ** C5: mounting a unit *)

Section Mount.

Import Server.

(** The stores the setup methods build have distinct keys. *)
Lemma kito_store_distinct (prefix : option string) :
  NoDup (map fst (singletonStore (kito prefix))).
Proof. constructor. Qed.

Lemma state_store_distinct (this : Kito) (key : string) (value : JsValue) :
  NoDup (map fst (singletonStore this)) ->
  NoDup (map fst (singletonStore (state this key value))).
Proof. apply JsFacts.NoDup_set. Qed.

Lemma use_store_distinct (this plugin : Kito) :
  NoDup (map fst (singletonStore this)) ->
  NoDup (map fst (singletonStore (use this plugin))).
Proof. apply JsFacts.NoDup_assign. Qed.

(** C5, as amended. Mounting merges the stores as a shallow key union in
    which the mounted unit's keys are added and the mounted unit's value wins
    on a key both have; the derive and resolve lists are concatenated, the
    mounted unit's functions after the host's. *)
Theorem C5_use_merges (this plugin : Kito) (key : string) :
  NoDup (map fst (singletonStore plugin)) ->
  Js.get key (singletonStore (use this plugin))
  = match Js.get key (singletonStore plugin) with
    | Some v => Some v
    | None => Js.get key (singletonStore this)
    end
  /\ deriveFunctions (use this plugin)
     = deriveFunctions this ++ deriveFunctions plugin
  /\ resolveFunctions (use this plugin)
     = resolveFunctions this ++ resolveFunctions plugin.
Proof.
  intros Hnd. split; [|split; reflexivity].
  simpl. now rewrite JsFacts.get_assign, JsFacts.get_rev.
Qed.

(** A host with [store.counter] mounting a unit with [store.sessions]
    exposes both keys. *)
Example use_exposes_both_keys :
  let host := state (kito None) "counter" (JNum 0) in
  let plugin := state (kito None) "sessions" (JObj []) in
  map fst (singletonStore (use host plugin)) = ["counter"; "sessions"].
Proof. reflexivity. Qed.

End Mount.

(** The host's [counter] is still there after mounting a unit that has
    [sessions]. *)
Lemma C5_use_merges_witness :
  let host := Server.state (Server.kito None) "counter" (JNum 0) in
  let plugin := Server.state (Server.kito None) "sessions" (JObj []) in
  Js.get "counter" (Server.singletonStore (Server.use host plugin))
  = match Js.get "counter" (Server.singletonStore plugin) with
    | Some v => Some v
    | None => Js.get "counter" (Server.singletonStore host)
    end
  /\ Server.deriveFunctions (Server.use host plugin)
     = Server.deriveFunctions host ++ Server.deriveFunctions plugin
  /\ Server.resolveFunctions (Server.use host plugin)
     = Server.resolveFunctions host ++ Server.resolveFunctions plugin.
Proof.
  apply (@C5_use_merges
           (Server.state (Server.kito None) "counter" (JNum 0))
           (Server.state (Server.kito None) "sessions" (JObj []))
           "counter").
  simpl. constructor; [intros [] | constructor].
Defined.

(** The claim as first stated fails on a key both units have: the merged
    store holds the mounted unit's value, not the host's. *)
Lemma C5_counterexample :
  let host := Server.state (Server.kito None) "counter" (JNum 0) in
  let plugin := Server.state (Server.kito None) "counter" (JNum 100) in
  Js.get "counter" (Server.singletonStore host) = Some (JNum 0)
  /\ Js.get "counter" (Server.singletonStore plugin) = Some (JNum 100)
  /\ Js.get "counter" (Server.singletonStore (Server.use host plugin))
     = Some (JNum 100).
Proof. repeat split; reflexivity. Qed.

(** ** C4: the order in which the context is built *)

Section ContextPipeline.

Import Server.

Variable pf : Platform.

(** A loop over functions that all resolve calls them in order, each on the
    state its predecessor left merged with what it returned. *)
Lemma runFns_chain (stage : Stage) (fns : list CtxFn) (st : PState)
    (seen : list PState) (st' : PState) :
  Spec.Chain fns st seen st' ->
  runFns stage fns st = (map (Invoked stage) seen, st', Resolved tt).
Proof.
  induction 1 as [st | fn fns st after returned seen st' Hfn Hrest IH]; simpl.
  - reflexivity.
  - unfold pbind at 1. unfold invoke. rewrite Hfn.
    unfold pbind at 1. unfold modifyCtx at 1.
    change (mkPState _ (ps_store after)) with (Spec.merged after returned).
    now rewrite IH.
Qed.

(** A chain is determined by its functions and its first state. *)
Lemma Chain_functional (fns : list CtxFn) (st : PState)
    (seen1 seen2 : list PState) (st1 st2 : PState) :
  Spec.Chain fns st seen1 st1 -> Spec.Chain fns st seen2 st2 ->
  seen1 = seen2 /\ st1 = st2.
Proof.
  intros H1. revert seen2 st2.
  induction H1 as [st | fn fns st after returned seen st' Hfn Hrest IH];
    intros seen2 st2 H2; inversion H2; subst.
  - split; reflexivity.
  - match goal with
    | H : fn st = _ |- _ => rewrite Hfn in H; injection H as <- <-
    end.
    match goal with
    | H : Spec.Chain fns _ _ _ |- _ => destruct (IH _ _ H) as [-> ->]
    end.
    split; reflexivity.
Qed.

(** The run of the wrapped handler when no function rejects *)
Lemma wrapHandler_trace (deriveFns resolveFns : list CtxFn)
    (decorators : Obj) (handler : CtxFn) (ctx store : Obj)
    (seenD seenR : list PState) (afterD afterR afterH : PState)
    (result : JsValue) :
  Spec.Chain deriveFns (Spec.seeded decorators ctx store) seenD afterD ->
  Spec.Chain resolveFns afterD seenR afterR ->
  handler afterR = (afterH, Resolved result) ->
  wrapHandler pf deriveFns resolveFns decorators handler (mkPState ctx store)
  = (map (Invoked Derive) seenD ++ map (Invoked Resolve) seenR
       ++ Invoked Handle afterR :: written pf result,
     afterH, Resolved tt).
Proof.
  intros HD HR HH. unfold wrapHandler.
  unfold pbind at 1. unfold modifyCtx at 1. simpl ps_ctx. simpl ps_store.
  unfold pbind at 1. unfold modifyCtx at 1. simpl ps_ctx. simpl ps_store.
  change (mkPState (Js.assign _ decorators) store)
    with (Spec.seeded decorators ctx store).
  unfold pbind at 1. rewrite (runFns_chain Derive HD).
  unfold pbind at 1. rewrite (runFns_chain Resolve HR).
  unfold pbind at 1. unfold invoke. rewrite HH.
  simpl app. f_equal. f_equal.
  assert (forall st, (match result with
                      | JUndefined => pret tt
                      | _ => if Js.typeofObject result && negb (Js.isNull result)
                             then emit (ResJson result)
                             else emit (ResSend (js_String pf result))
                      end) st = (written pf result, st, Resolved tt)) as Hw.
  { intros st. unfold written.
    destruct result; try reflexivity. }
  rewrite Hw. reflexivity.
Qed.

(** After a merge a key holds what the returned value wrote to it last, and
    what the context held when the returned value has no such key or is not
    merged at all. *)
Lemma mergeReturned_get (returned : JsValue) (store ctx : Obj) (key : string) :
  Js.get key (mergeReturned returned store ctx)
  = if Spec.structured returned
    then match Js.get key (rev (entriesIn store returned)) with
         | Some v => Some v
         | None => Js.get key ctx
         end
    else Js.get key ctx.
Proof.
  unfold mergeReturned, Spec.structured.
  destruct (Js.truthy returned && Js.typeofObject returned); auto.
  apply JsFacts.get_assign.
Qed.

Lemma seeded_get (decorators ctx store : Obj) (key : string) :
  Js.get key (ps_ctx (Spec.seeded decorators ctx store))
  = match Js.get key (rev decorators) with
    | Some v => Some v
    | None => if key =? "store" then Some JStoreRef else Js.get key ctx
    end.
Proof.
  unfold Spec.seeded. simpl. rewrite JsFacts.get_assign.
  destruct (Js.get key (rev decorators)); auto.
  destruct (key =? "store") eqn:E.
  - apply String.eqb_eq in E. subst. apply JsFacts.get_set_same.
  - apply JsFacts.get_set_other. intros <-. now rewrite String.eqb_refl in E.
Qed.

End ContextPipeline.

Section ContextPipelineClaim.

Import Server.

Variable pf : Platform.

(** C4. In a request none of whose functions rejects, the wrapped handler
    attaches the store, copies the decorators on, then calls the derive
    functions in registration order, then the resolve functions in
    registration order, then the route handler; each function is called on
    the context its predecessor left, merged with what that predecessor
    returned. In a merge the returned value's keys overwrite the context's.
    So with derive functions [f1] then [f2], [f2] is called on a context that
    holds [f1]'s output, and the context after the derive stage (the one
    the handler is called on when there is no resolve function) holds [f2]'s
    value under every key [f2] returned. *)
Theorem C4_context_pipeline (deriveFns resolveFns : list CtxFn)
    (decorators : Obj) (handler : CtxFn) (ctx store : Obj)
    (seenD seenR : list PState) (afterD afterR afterH : PState)
    (result : JsValue) :
  Spec.Chain deriveFns (Spec.seeded decorators ctx store) seenD afterD ->
  Spec.Chain resolveFns afterD seenR afterR ->
  handler afterR = (afterH, Resolved result) ->
  wrapHandler pf deriveFns resolveFns decorators handler (mkPState ctx store)
  = (map (Invoked Derive) seenD ++ map (Invoked Resolve) seenR
       ++ Invoked Handle afterR :: written pf result,
     afterH, Resolved tt)
  /\ (forall key,
        Js.get key (ps_ctx (Spec.seeded decorators ctx store))
        = match Js.get key (rev decorators) with
          | Some v => Some v
          | None => if key =? "store" then Some JStoreRef else Js.get key ctx
          end)
  /\ (forall after returned key,
        Js.get key (ps_ctx (Spec.merged after returned))
        = if Spec.structured returned
          then match Js.get key (rev (entriesIn (ps_store after) returned)) with
               | Some v => Some v
               | None => Js.get key (ps_ctx after)
               end
          else Js.get key (ps_ctx after))
  /\ (forall f1 f2 after1 out1 after2 out2,
        deriveFns = [f1; f2] ->
        f1 (Spec.seeded decorators ctx store) = (after1, Resolved out1) ->
        f2 (Spec.merged after1 out1) = (after2, Resolved out2) ->
        seenD = [Spec.seeded decorators ctx store; Spec.merged after1 out1]
        /\ afterD = Spec.merged after2 out2
        /\ (resolveFns = [] -> afterR = Spec.merged after2 out2)
        /\ (forall key v,
              Spec.structured out1 = true ->
              Js.get key (rev (entriesIn (ps_store after1) out1)) = Some v ->
              Js.get key (ps_ctx (Spec.merged after1 out1)) = Some v)
        /\ (forall key v,
              Spec.structured out2 = true ->
              Js.get key (rev (entriesIn (ps_store after2) out2)) = Some v ->
              Js.get key (ps_ctx afterD) = Some v)).
Proof.
  intros HD HR HH.
  split; [eapply wrapHandler_trace; eassumption|].
  split; [intros key; apply seeded_get|].
  split; [intros after returned key; apply mergeReturned_get|].
  intros f1 f2 after1 out1 after2 out2 -> H1 H2.
  assert (Spec.Chain [f1; f2] (Spec.seeded decorators ctx store)
            [Spec.seeded decorators ctx store; Spec.merged after1 out1]
            (Spec.merged after2 out2)) as HC.
  { eapply Spec.Chain_cons; [exact H1|].
    eapply Spec.Chain_cons; [exact H2|]. constructor. }
  destruct (Chain_functional HD HC) as [-> ->].
  split; [reflexivity|]. split; [reflexivity|].
  split; [intros ->; now inversion HR|].
  split; intros key v Hs Hget; simpl; rewrite mergeReturned_get, Hs, Hget;
    reflexivity.
Qed.

End ContextPipelineClaim.

(** A request through two derive functions, one resolve function and a
    handler: the second derive function reads the token the first one
    contributed and replaces its [user]. *)
Lemma C4_context_pipeline_witness :
  let decorators : Obj := [("logger", JStr "console")] in
  let ctx : Obj := [("request", JStr "GET /whoami")] in
  let store : Obj := [("requestCount", JNum 0)] in
  let out1 := JObj [("authToken", JStr "secret"); ("user", JStr "anonymous")] in
  let out2 := JObj [("user", JStr "secret")] in
  let s0 := Spec.seeded decorators ctx store in
  let s1 := Spec.merged s0 out1 in
  let s2 := Spec.merged s1 out2 in
  let r1 := Server.mkPState (Server.ps_ctx s2) [("requestCount", JNum 1)] in
  let s3 := Spec.merged r1 (JObj [("requestNumber", JNum 1)]) in
  let result := JObj [("user", JStr "secret")] in
  let deriveFns := [Reference.deriveToken; Reference.deriveUser] in
  Server.wrapHandler Reference.okPlatform deriveFns [Reference.resolveCount]
    decorators Reference.whoami (Server.mkPState ctx store)
  = (map (Server.Invoked Server.Derive) [s0; s1]
       ++ map (Server.Invoked Server.Resolve) [s2]
       ++ Server.Invoked Server.Handle s3
          :: Server.written Reference.okPlatform result,
     s3, Resolved tt)
  /\ (forall key,
        Js.get key (Server.ps_ctx (Spec.seeded decorators ctx store))
        = match Js.get key (rev decorators) with
          | Some v => Some v
          | None => if key =? "store" then Some JStoreRef else Js.get key ctx
          end)
  /\ (forall after returned key,
        Js.get key (Server.ps_ctx (Spec.merged after returned))
        = if Spec.structured returned
          then match Js.get key
                       (rev (Server.entriesIn (Server.ps_store after) returned))
               with
               | Some v => Some v
               | None => Js.get key (Server.ps_ctx after)
               end
          else Js.get key (Server.ps_ctx after))
  /\ (forall f1 f2 after1 out1 after2 out2,
        deriveFns = [f1; f2] ->
        f1 (Spec.seeded decorators ctx store) = (after1, Resolved out1) ->
        f2 (Spec.merged after1 out1) = (after2, Resolved out2) ->
        [s0; s1] = [Spec.seeded decorators ctx store; Spec.merged after1 out1]
        /\ s2 = Spec.merged after2 out2
        /\ ([Reference.resolveCount] = [] -> s3 = Spec.merged after2 out2)
        /\ (forall key v,
              Spec.structured out1 = true ->
              Js.get key (rev (Server.entriesIn (Server.ps_store after1) out1))
              = Some v ->
              Js.get key (Server.ps_ctx (Spec.merged after1 out1)) = Some v)
        /\ (forall key v,
              Spec.structured out2 = true ->
              Js.get key (rev (Server.entriesIn (Server.ps_store after2) out2))
              = Some v ->
              Js.get key (Server.ps_ctx s2) = Some v)).
Proof.
  cbv zeta.
  apply (@C4_context_pipeline Reference.okPlatform
           [Reference.deriveToken; Reference.deriveUser]
           [Reference.resolveCount]
           [("logger", JStr "console")] Reference.whoami
           [("request", JStr "GET /whoami")] [("requestCount", JNum 0)]).
  - eapply Spec.Chain_cons; [reflexivity|].
    eapply Spec.Chain_cons; [reflexivity|]. apply Spec.Chain_nil.
  - eapply Spec.Chain_cons; [reflexivity|]. apply Spec.Chain_nil.
  - reflexivity.
Defined.

(** The run of that request, computed: the handler is called on a context
    with the store, the decorator, the token of the first derive function,
    the user of the second, and the number of the resolve function. *)
Example pipeline_run :
  let '(events, final, outcome) :=
    Server.wrapHandler Reference.okPlatform
      [Reference.deriveToken; Reference.deriveUser] [Reference.resolveCount]
      [("logger", JStr "console")] Reference.whoami
      (Server.mkPState [("request", JStr "GET /whoami")]
                       [("requestCount", JNum 0)]) in
  Server.ps_ctx final
  = [("request", JStr "GET /whoami"); ("store", JStoreRef);
     ("logger", JStr "console"); ("authToken", JStr "secret");
     ("user", JStr "secret"); ("requestNumber", JNum 1)]
  /\ Server.ps_store final = [("requestCount", JNum 1)]
  /\ last events (Server.ResSend "")
     = Server.ResJson (JObj [("user", JStr "secret")])
  /\ length events = 5.
Proof. repeat split; reflexivity. Qed.

(** ** Further properties of the two pipelines *)

Section Further.

Import Server.

Variable pf : Platform.

(** X12. A client call calls the network primitive at most once, whatever
    the stages before and after it do: nothing is retried. *)
Lemma fetchCalls_at_most_one (domain : string) (config : Config)
    (paths : list string) (method : string) (a1 a2 : JsValue) :
  length (fetchCalls (createMethodCaller pf domain config paths method a1 a2))
  <= 1.
Proof.
  rewrite createMethodCaller_stages.
  destruct (resolveHeaders (config_headers config)) as [ch|e]; simpl; auto.
  destruct (settled (runOnRequest config (pathOf paths) _)); simpl; auto.
Qed.

(** X11. A parameter call appends the string of the first value of its
    object, whatever else the object holds: the segment a member lookup of
    that string appends, unless the string is a verb or [index]. *)
Lemma param_is_segment (p : Proxy) (key : string) (v : JsValue) (more : Obj) :
  existsb (String.eqb (js_String pf v)) HTTP_METHODS = false ->
  (js_String pf v =? "index") = false ->
  proxy_get pf p (js_String pf v)
  = SubProxy (proxy_apply pf p [JObj ((key, v) :: more)]).
Proof.
  intros Hverb Hindex. destruct p as [domain config paths].
  unfold proxy_get, proxy_apply. rewrite Hverb, Hindex. reflexivity.
Qed.

(** When a function of a loop rejects, the loop stops there with that
    rejection, after the calls made so far. *)
Lemma runFns_rejects (stage : Stage) (pre : list CtxFn) (fn : CtxFn)
    (post : list CtxFn) (st : PState) (seen : list PState)
    (reached after : PState) (reason : JsValue) :
  Spec.Chain pre st seen reached ->
  fn reached = (after, Rejected reason) ->
  runFns stage (pre ++ fn :: post) st
  = (map (Invoked stage) (seen ++ [reached]), after, Rejected reason).
Proof.
  induction 1 as [st | f fns st aft returned seen st' Hf Hrest IH];
    intros Hfn; simpl.
  - unfold pbind, invoke. now rewrite Hfn.
  - unfold pbind at 1. unfold invoke. rewrite Hf.
    unfold pbind at 1. unfold modifyCtx at 1.
    change (mkPState _ (ps_store aft)) with (Spec.merged aft returned).
    now rewrite IH.
Qed.

(** X13. When a derive function rejects, the pipeline rejects with the same
    reason: the derive functions after it, the resolve functions and the
    handler are not called, and nothing is written on the response. *)
Lemma wrapHandler_derive_rejects (pre : list CtxFn) (fn : CtxFn)
    (post resolveFns : list CtxFn) (decorators : Obj) (handler : CtxFn)
    (ctx store : Obj) (seen : list PState) (reached after : PState)
    (reason : JsValue) :
  Spec.Chain pre (Spec.seeded decorators ctx store) seen reached ->
  fn reached = (after, Rejected reason) ->
  wrapHandler pf (pre ++ fn :: post) resolveFns decorators handler
              (mkPState ctx store)
  = (map (Invoked Derive) (seen ++ [reached]), after, Rejected reason).
Proof.
  intros Hpre Hfn. unfold wrapHandler.
  unfold pbind at 1. unfold modifyCtx at 1. simpl ps_ctx. simpl ps_store.
  unfold pbind at 1. unfold modifyCtx at 1. simpl ps_ctx. simpl ps_store.
  change (mkPState (Js.assign _ decorators) store)
    with (Spec.seeded decorators ctx store).
  unfold pbind at 1.
  now rewrite (@runFns_rejects Derive pre fn post _ seen reached after reason
                 Hpre Hfn).
Qed.

End Further.

(** [hasFiles] looks at the values of the body and at the elements of its
    array values, and no deeper. *)
Example hasFiles_depth :
  hasFiles (JObj [("avatar", JBlob [])]) = true
  /\ hasFiles (JObj [("docs", JArr [JStr "a"; JBlob []])]) = true
  /\ hasFiles (JArr [JBlob []]) = true
  /\ hasFiles (JObj [("profile", JObj [("avatar", JBlob [])])]) = false
  /\ hasFiles (JObj [("docs", JArr [JArr [JBlob []]])]) = false
  /\ hasFiles (JBlob []) = false.
Proof. repeat split; reflexivity. Qed.

(** * Further properties of the client *)

Section ClientFurther.

Variable pf : Platform.

(** X1. When the header provider rejects, or the pre-request hook rejects,
    the client call rejects with the same reason and the network primitive
    is not called. *)
Theorem rejection_before_fetch (domain : string) (config : Config)
    (paths : list string) (method : string) (a1 a2 reason : JsValue) :
  (resolveHeaders (config_headers config) = Rejected reason
   \/ exists configHeaders hook,
        resolveHeaders (config_headers config) = Resolved configHeaders
        /\ config_onRequest config = Some hook
        /\ hook (pathOf paths)
                (buildInit pf config method configHeaders
                   (actualOptionsOf method a1 a2) (bodyOf method a1)
                   (isGetOrHead method))
           = Rejected reason) ->
  createMethodCaller pf domain config paths method a1 a2
  = ([], Rejected reason).
Proof.
  intros [Hh | (ch & hook & Hh & Hhook & Hrej)];
    rewrite createMethodCaller_stages, Hh; [reflexivity|].
  cbv zeta. unfold runOnRequest. rewrite Hhook.
  unfold bind, await, settled. rewrite Hrej. reflexivity.
Qed.

(** X2. When the network primitive resolved but the body cannot be decoded
    (no post-response hook, and the reader the content-type selects
    rejects), the call rejects with the reader's reason after its one network
    call, whatever the status: a failure response with an undecodable body
    gives no error envelope. *)
Theorem undecodable_body_rejects (domain : string) (config : Config)
    (paths : list string) (method : string) (a1 a2 : JsValue)
    (call : string * Obj) (r : Response) (reason : JsValue) :
  In call (fetchCalls (createMethodCaller pf domain config paths method a1 a2)) ->
  fetcherOf pf config (fst call) (snd call) = Resolved r ->
  config_onResponse config = None ->
  parseResponse r = Rejected reason ->
  createMethodCaller pf domain config paths method a1 a2
  = ([call], Rejected reason).
Proof.
  intros Hin Hf Hnone Hparse. rewrite createMethodCaller_stages in *.
  destruct (resolveHeaders (config_headers config)) as [ch|e]; [|destruct Hin].
  cbv zeta in *.
  destruct (settled (runOnRequest config (pathOf paths) _)) as [init|e];
    [|destruct Hin].
  destruct Hin as [<-|[]]. simpl in Hf. rewrite Hf.
  unfold handleResponse. rewrite Hnone. simpl. rewrite Hparse. reflexivity.
Qed.

End ClientFurther.

(** A client whose header provider has no token *)
Lemma rejection_before_fetch_witness :
  createMethodCaller Reference.okPlatform "http://localhost:3000"
    Reference.noTokenConfig ["users"] "get" JUndefined JUndefined
  = ([], Rejected (JStr "no token")).
Proof.
  apply (@rejection_before_fetch Reference.okPlatform "http://localhost:3000"
           Reference.noTokenConfig ["users"] "get" JUndefined JUndefined
           (JStr "no token")).
  left. reflexivity.
Defined.

(** A 500 response with an HTML body under a JSON content-type *)
Lemma undecodable_body_rejects_witness :
  let pf := Reference.platform (Reference.mockFetch Reference.brokenResponse) in
  let call :=
    ("http://localhost:3000/users",
     [("method", JStr "GET"); ("headers", JObj [])]) in
  createMethodCaller pf "http://localhost:3000" Reference.noConfig ["users"]
    "get" JUndefined JUndefined
  = ([call], Rejected (JStr "Unexpected token < in JSON")).
Proof.
  apply (@undecodable_body_rejects
           (Reference.platform (Reference.mockFetch Reference.brokenResponse))
           "http://localhost:3000" Reference.noConfig ["users"] "get"
           JUndefined JUndefined
           ("http://localhost:3000/users",
            [("method", JStr "GET"); ("headers", JObj [])])
           Reference.brokenResponse (JStr "Unexpected token < in JSON")).
  - left. reflexivity.
  - reflexivity.
  - reflexivity.
  - reflexivity.
Defined.

Section RequestFurther.

Variable pf : Platform.

(** What [{...a, ...b}] holds under a key: what [b] wrote to it last, or else
    what [a] wrote to it last *)
Lemma spread2_get (a b : JsValue) (key : string) :
  Js.get key (spread2 a b)
  = match Js.get key (rev (Js.entries b)) with
    | Some v => Some v
    | None => Js.get key (rev (Js.entries a))
    end.
Proof.
  unfold spread2. rewrite !JsFacts.get_assign.
  destruct (Js.get key (rev (Js.entries b))); auto.
  destruct (Js.get key (rev (Js.entries a))); auto.
Qed.

(** The initialisation a call without pre-request hook issues is the one the
    executor built. *)
Lemma issued_without_hook (domain : string) (config : Config)
    (paths : list string) (method : string) (a1 a2 : JsValue)
    (call : string * Obj) (configHeaders : JsValue) :
  In call (fetchCalls (createMethodCaller pf domain config paths method a1 a2)) ->
  config_onRequest config = None ->
  resolveHeaders (config_headers config) = Resolved configHeaders ->
  snd call
  = buildInit pf config method configHeaders (actualOptionsOf method a1 a2)
      (bodyOf method a1) (isGetOrHead method).
Proof.
  intros Hin Hnone Hh.
  destruct (issued_request _ _ _ _ _ _ _ _ Hin) as (ch & Hh' & _ & Hrun).
  rewrite Hh in Hh'. injection Hh' as <-.
  eapply runOnRequest_without_hook; eauto.
Qed.

(** The executor's body step writes [body] and [headers] and nothing else. *)
Lemma encodeBody_other_keys (body : JsValue) (init : Obj) (key : string) :
  key <> "body" -> key <> "headers" ->
  Js.get key (encodeBody pf body init) = Js.get key init.
Proof.
  intros Hb Hh. unfold encodeBody.
  destruct (hasFiles body); [|destruct (Js.typeofObject body)];
    rewrite ?JsFacts.get_set_other by congruence; reflexivity.
Qed.

Lemma buildInit_other_keys (config : Config) (method : string)
    (configHeaders options body : JsValue) (getOrHead : bool) (key : string) :
  key <> "body" -> key <> "headers" ->
  Js.get key (buildInit pf config method configHeaders options body getOrHead)
  = Js.get key (Spec.bodilessInit config method configHeaders options).
Proof.
  intros Hb Hh. unfold buildInit.
  destruct (negb (Js.isNullish body) && negb getOrHead); [|reflexivity].
  now apply encodeBody_other_keys.
Qed.

(** X3. In the request a call without pre-request hook issues, when neither
    the base options nor the per-call overrides carry [headers], every header
    other than [content-type] holds the per-call value when the call gives
    one and the configuration's value otherwise: per-call headers take
    precedence, header by header. *)
Theorem headers_precedence (domain : string) (config : Config)
    (paths : list string) (method : string) (a1 a2 : JsValue)
    (call : string * Obj) (configHeaders : JsValue) :
  In call (fetchCalls (createMethodCaller pf domain config paths method a1 a2)) ->
  config_onRequest config = None ->
  resolveHeaders (config_headers config) = Resolved configHeaders ->
  Js.get "headers" (rev (Js.entries (config_fetchOptions config))) = None ->
  Js.get "headers"
         (rev (Js.entries (Js.prop (actualOptionsOf method a1 a2) "fetch")))
  = None ->
  exists hs,
    Js.get "headers" (snd call) = Some (JObj hs)
    /\ forall key,
         key <> "content-type" ->
         Js.get key hs
         = match Js.get key
                   (rev (Js.entries
                           (Js.prop (actualOptionsOf method a1 a2) "headers")))
           with
           | Some v => Some v
           | None => Js.get key (rev (Js.entries configHeaders))
           end.
Proof.
  intros Hin Hnone Hh Hbase Hcall.
  rewrite (issued_without_hook _ _ _ _ _ _ _ Hin Hnone Hh).
  set (options := actualOptionsOf method a1 a2) in *.
  pose proof (bodilessInit_get config method configHeaders options "headers"
                Hbase Hcall) as Hplain.
  simpl in Hplain. unfold buildInit.
  fold (Spec.bodilessInit config method configHeaders options).
  destruct (negb (Js.isNullish (bodyOf method a1)) && negb (isGetOrHead method)).
  - unfold encodeBody.
    assert (Js.assign [] (Js.entries
                            (Js.field "headers"
                               (Spec.bodilessInit config method configHeaders
                                  options)))
            = spread2 configHeaders (Js.prop options "headers")) as Hcopy.
    { unfold Js.field. rewrite Hplain. simpl.
      apply (assign_fresh _ []), spread2_distinct. }
    destruct (hasFiles (bodyOf method a1));
      [|destruct (Js.typeofObject (bodyOf method a1))].
    + exists (spread2 configHeaders (Js.prop options "headers")).
      rewrite JsFacts.get_set_other by discriminate.
      split; [exact Hplain|]. intros key _. apply spread2_get.
    + eexists. rewrite JsFacts.get_set_other by discriminate.
      rewrite JsFacts.get_set_same. split; [reflexivity|].
      intros key Hkey. rewrite JsFacts.get_set_other by congruence.
      rewrite Hcopy. apply spread2_get.
    + eexists. rewrite JsFacts.get_set_other by discriminate.
      rewrite JsFacts.get_set_same. split; [reflexivity|].
      intros key Hkey. rewrite JsFacts.get_set_other by congruence.
      rewrite Hcopy. apply spread2_get.
  - exists (spread2 configHeaders (Js.prop options "headers")).
    split; [exact Hplain|]. intros key _. apply spread2_get.
Qed.

(** X4. In the request a call without pre-request hook issues, every member
    other than [body] and [headers] holds the per-call override when the call
    gives one, else the base option of the configuration when there is one,
    else, for [method], the upper-cased verb: the overrides win over the base
    options, and both win over the verb. *)
Theorem fetch_overrides_precedence (domain : string) (config : Config)
    (paths : list string) (method : string) (a1 a2 : JsValue)
    (call : string * Obj) (configHeaders : JsValue) (key : string) :
  In call (fetchCalls (createMethodCaller pf domain config paths method a1 a2)) ->
  config_onRequest config = None ->
  resolveHeaders (config_headers config) = Resolved configHeaders ->
  key <> "body" -> key <> "headers" ->
  Js.get key (snd call)
  = match Js.get key
            (rev (Js.entries (Js.prop (actualOptionsOf method a1 a2) "fetch")))
    with
    | Some v => Some v
    | None =>
        match Js.get key (rev (Js.entries (config_fetchOptions config))) with
        | Some v => Some v
        | None => if key =? "method"
                  then Some (JStr (Str.toUpperCase method))
                  else None
        end
    end.
Proof.
  intros Hin Hnone Hh Hb Hhd.
  rewrite (issued_without_hook _ _ _ _ _ _ _ Hin Hnone Hh).
  rewrite buildInit_other_keys by assumption.
  unfold Spec.bodilessInit. rewrite !JsFacts.get_assign.
  destruct (Js.get key (rev (Js.entries (Js.prop _ "fetch")))); auto.
  destruct (Js.get key (rev (Js.entries (config_fetchOptions config)))); auto.
  cbn [Js.get]. rewrite (String.eqb_sym key "method").
  destruct ("method" =? key); auto.
  destruct ("headers" =? key) eqn:E; auto.
  apply String.eqb_eq in E. congruence.
Qed.

(** X5. When the pre-request hook returns a truthy value, every member of
    the issued request holds what the returned value gives it, and what the
    computed initialisation (as the hook left it) holds otherwise; a falsy
    return leaves the computed initialisation. The URL of the request does
    not depend on the hook. *)
Theorem onRequest_result_wins (domain : string) (config : Config)
    (paths : list string) (method : string) (a1 a2 : JsValue)
    (call : string * Obj) (configHeaders : JsValue)
    (hook : string -> Obj -> Promise (Obj * JsValue))
    (init1 : Obj) (modified : JsValue) :
  In call (fetchCalls (createMethodCaller pf domain config paths method a1 a2)) ->
  resolveHeaders (config_headers config) = Resolved configHeaders ->
  config_onRequest config = Some hook ->
  hook (pathOf paths)
       (buildInit pf config method configHeaders
          (actualOptionsOf method a1 a2) (bodyOf method a1)
          (isGetOrHead method))
  = Resolved (init1, modified) ->
  fst call = requestUrl pf domain paths (actualOptionsOf method a1 a2)
  /\ (Js.truthy modified = true ->
      forall key,
        Js.get key (snd call)
        = match Js.get key (rev (Js.entries modified)) with
          | Some v => Some v
          | None => Js.get key (rev init1)
          end)
  /\ (Js.truthy modified = false -> snd call = init1).
Proof.
  intros Hin Hh Hhook Hrun.
  destruct (issued_request _ _ _ _ _ _ _ _ Hin) as (ch & Hh' & Hurl & Hsett).
  rewrite Hh in Hh'. injection Hh' as <-.
  split; [exact Hurl|].
  unfold runOnRequest in Hsett. rewrite Hhook in Hsett.
  unfold bind, await, settled in Hsett. rewrite Hrun in Hsett.
  simpl in Hsett. injection Hsett as Hsett. split.
  - intros Ht key. rewrite Ht in Hsett. rewrite <- Hsett.
    rewrite !JsFacts.get_assign.
    destruct (Js.get key (rev (Js.entries modified))); auto.
    destruct (Js.get key (rev init1)); auto.
  - intros Ht. rewrite Ht in Hsett. now symmetry.
Qed.

(** The loop of [buildQueryString] appends nothing for entries that are all
    [null] or [undefined]. *)
Lemma queryLoop_nullish (props : Obj) (params : list (string * string)) :
  forallb (fun kv => Js.isNullish (snd kv)) props = true ->
  fold_left (appendQueryEntry pf) props params = params.
Proof.
  revert params. induction props as [|[key value] rest IH]; intros params;
    simpl; auto.
  intros Hall. apply andb_prop in Hall as [Hv Hrest].
  rewrite Hv. now apply IH.
Qed.

(** X6. On a platform whose [URLSearchParams] without pairs serialises to the
    empty string, a query with no entry, or whose values are all [null] or
    [undefined], adds nothing to the URL, not even the question mark. *)
Theorem nullish_query_adds_nothing (domain : string) (config : Config)
    (paths : list string) (method : string) (a1 a2 : JsValue)
    (call : string * Obj) :
  URLSearchParams_toString pf [] = "" ->
  forallb (fun kv => Js.isNullish (snd kv))
          (Js.entries (Js.prop (actualOptionsOf method a1 a2) "query"))
  = true ->
  In call (fetchCalls (createMethodCaller pf domain config paths method a1 a2)) ->
  fst call = (domain ++ "/" ++ Str.join "/" paths)%string.
Proof.
  intros Hempty Hall Hin.
  destruct (issued_request _ _ _ _ _ _ _ _ Hin) as (ch & _ & -> & _).
  unfold requestUrl, buildQueryString.
  rewrite queryLoop_nullish by assumption. rewrite Hempty. simpl.
  rewrite append_empty_r.
  destruct (Js.truthy (Js.prop (actualOptionsOf method a1 a2) "query"));
    reflexivity.
Qed.

End RequestFurther.

(** A [POST] that gives an [Authorization] of its own to a client configured
    with one *)
Lemma headers_precedence_witness :
  let options := JObj [("headers", JObj [("Authorization", JStr "Bearer call")])] in
  let call :=
    ("http://localhost:3000/users",
     [("method", JStr "POST");
      ("headers", JObj [("Authorization", JStr "Bearer call");
                        ("X-Trace", JStr "1");
                        ("content-type", JStr "application/json")]);
      ("credentials", JStr "include"); ("mode", JStr "cors");
      ("body", JStr (Reference.stringify Reference.john))]) in
  exists hs,
    Js.get "headers" (snd call) = Some (JObj hs)
    /\ forall key,
         key <> "content-type" ->
         Js.get key hs
         = match Js.get key
                   (rev (Js.entries
                           (Js.prop (actualOptionsOf "post" Reference.john options)
                                    "headers")))
           with
           | Some v => Some v
           | None =>
               Js.get key
                 (rev (Js.entries
                         (JObj [("Authorization", JStr "Bearer config");
                                ("X-Trace", JStr "1")])))
           end.
Proof.
  apply (@headers_precedence Reference.okPlatform "http://localhost:3000"
           Reference.authConfig ["users"] "post" Reference.john
           (JObj [("headers", JObj [("Authorization", JStr "Bearer call")])])
           ("http://localhost:3000/users",
            [("method", JStr "POST");
             ("headers", JObj [("Authorization", JStr "Bearer call");
                               ("X-Trace", JStr "1");
                               ("content-type", JStr "application/json")]);
             ("credentials", JStr "include"); ("mode", JStr "cors");
             ("body", JStr (Reference.stringify Reference.john))])
           (JObj [("Authorization", JStr "Bearer config");
                  ("X-Trace", JStr "1")])).
  - left. reflexivity.
  - reflexivity.
  - reflexivity.
  - reflexivity.
  - reflexivity.
Defined.

(** A [GET] whose overrides change the credentials and the method *)
Lemma fetch_overrides_precedence_witness :
  let a1 := JObj [("fetch", JObj [("credentials", JStr "omit");
                                  ("method", JStr "DELETE")])] in
  let call :=
    ("http://localhost:3000/users",
     [("method", JStr "DELETE");
      ("headers", JObj [("Authorization", JStr "Bearer config");
                        ("X-Trace", JStr "1")]);
      ("credentials", JStr "omit"); ("mode", JStr "cors")]) in
  Js.get "method" (snd call)
  = match Js.get "method"
            (rev (Js.entries (Js.prop (actualOptionsOf "get" a1 JUndefined) "fetch")))
    with
    | Some v => Some v
    | None =>
        match Js.get "method"
                (rev (Js.entries (config_fetchOptions Reference.authConfig)))
        with
        | Some v => Some v
        | None => if "method" =? "method"
                  then Some (JStr (Str.toUpperCase "get"))
                  else None
        end
    end.
Proof.
  apply (@fetch_overrides_precedence Reference.okPlatform
           "http://localhost:3000" Reference.authConfig ["users"] "get"
           (JObj [("fetch", JObj [("credentials", JStr "omit");
                                  ("method", JStr "DELETE")])])
           JUndefined
           ("http://localhost:3000/users",
            [("method", JStr "DELETE");
             ("headers", JObj [("Authorization", JStr "Bearer config");
                               ("X-Trace", JStr "1")]);
             ("credentials", JStr "omit"); ("mode", JStr "cors")])
           (JObj [("Authorization", JStr "Bearer config");
                  ("X-Trace", JStr "1")])
           "method").
  - left. reflexivity.
  - reflexivity.
  - reflexivity.
  - discriminate.
  - discriminate.
Defined.

(** A hook that adds a signal and replaces the method *)
Lemma onRequest_result_wins_witness :
  let modified := JObj [("signal", JStr "timeout 5s"); ("method", JStr "TRACE")] in
  let init1 : Obj := [("method", JStr "GET"); ("headers", JObj [])] in
  let call :=
    ("http://localhost:3000/users",
     [("method", JStr "TRACE"); ("headers", JObj []);
      ("signal", JStr "timeout 5s")]) in
  fst call
  = requestUrl Reference.okPlatform "http://localhost:3000" ["users"]
      (actualOptionsOf "get" JUndefined JUndefined)
  /\ (Js.truthy modified = true ->
      forall key,
        Js.get key (snd call)
        = match Js.get key (rev (Js.entries modified)) with
          | Some v => Some v
          | None => Js.get key (rev init1)
          end)
  /\ (Js.truthy modified = false -> snd call = init1).
Proof.
  apply (@onRequest_result_wins Reference.okPlatform "http://localhost:3000"
           Reference.hookedRequestConfig ["users"] "get" JUndefined JUndefined
           ("http://localhost:3000/users",
            [("method", JStr "TRACE"); ("headers", JObj []);
             ("signal", JStr "timeout 5s")])
           (JObj [])
           (fun _ init =>
              Resolved (init, JObj [("signal", JStr "timeout 5s");
                                    ("method", JStr "TRACE")]))).
  - left. reflexivity.
  - reflexivity.
  - reflexivity.
  - reflexivity.
Defined.

(** A query whose two values are [null] and [undefined] *)
Lemma nullish_query_adds_nothing_witness :
  fst ("http://localhost:3000/users",
       [("method", JStr "GET"); ("headers", JObj [])])
  = ("http://localhost:3000" ++ "/" ++ Str.join "/" ["users"])%string.
Proof.
  apply (@nullish_query_adds_nothing Reference.okPlatform
           "http://localhost:3000" Reference.noConfig ["users"] "get"
           (JObj [("query", JObj [("a", JNull); ("b", JUndefined)])])
           JUndefined
           ("http://localhost:3000/users",
            [("method", JStr "GET"); ("headers", JObj [])])).
  - reflexivity.
  - reflexivity.
  - left. reflexivity.
Defined.

Section ResponseFurther.

(** X7. Whatever follows the first semicolon of the content-type is ignored:
    a recognised type followed by parameters (a charset, a boundary) selects
    the reader of that type. *)
Theorem content_type_parameters_ignored (r : Response) (t rest : string)
    (reader : Promise JsValue) :
  In (t, reader)
     [("application/json", json r);
      ("application/octet-stream", Spec.settledMap JArrayBuffer (arrayBuffer r));
      ("multipart/form-data",
       Spec.settledMap (fun fd => JObj (Js.assign [] fd)) (formData r));
      ("text/event-stream", Resolved (JResponse r))] ->
  Headers_get (headers r) "content-type" = Some (t ++ ";" ++ rest)%string ->
  parseResponse r = reader.
Proof.
  intros Hin Hct. unfold parseResponse. rewrite Hct.
  destruct Hin as [[= <- <-]|[[= <- <-]|[[= <- <-]|[[= <- <-]|[]]]]];
    reflexivity.
Qed.

(** X8. A multipart response is decoded into an object with one property per
    field name, holding the last value the form has under that name. *)
Theorem multipart_last_value_wins (r : Response) (rest : string)
    (fd : list (string * JsValue)) :
  Headers_get (headers r) "content-type"
  = Some ("multipart/form-data;" ++ rest)%string ->
  formData r = Resolved fd ->
  exists o,
    parseResponse r = Resolved (JObj o)
    /\ NoDup (map fst o)
    /\ forall key, Js.get key o = Js.get key (rev fd).
Proof.
  intros Hct Hfd. exists (Js.assign [] fd).
  split; [|split].
  - unfold parseResponse. rewrite Hct, Hfd. reflexivity.
  - apply JsFacts.NoDup_assign. constructor.
  - intros key. rewrite JsFacts.get_assign.
    destruct (Js.get key (rev fd)); reflexivity.
Qed.

End ResponseFurther.

(** A JSON response with a charset *)
Lemma content_type_parameters_ignored_witness :
  let r :=
    mkResponse 200 (Reference.contentTypeHeaders "application/json; charset=utf-8")
               (Resolved (JObj [("ok", JBool true)]))
               Reference.unread Reference.unread Reference.unread in
  parseResponse r = json r.
Proof.
  apply (@content_type_parameters_ignored
           (mkResponse 200
              (Reference.contentTypeHeaders "application/json; charset=utf-8")
              (Resolved (JObj [("ok", JBool true)]))
              Reference.unread Reference.unread Reference.unread)
           "application/json" " charset=utf-8").
  - left. reflexivity.
  - reflexivity.
Defined.

(** A form with the field [tag] twice *)
Lemma multipart_last_value_wins_witness :
  let fd := [("tag", JStr "a"); ("name", JStr "John"); ("tag", JStr "b")] in
  let r :=
    mkResponse 200
               (Reference.contentTypeHeaders "multipart/form-data; boundary=x")
               Reference.unread Reference.unread (Resolved fd)
               Reference.unread in
  exists o,
    parseResponse r = Resolved (JObj o)
    /\ NoDup (map fst o)
    /\ forall key, Js.get key o = Js.get key (rev fd).
Proof.
  apply (@multipart_last_value_wins
           (mkResponse 200
              (Reference.contentTypeHeaders "multipart/form-data; boundary=x")
              Reference.unread Reference.unread
              (Resolved [("tag", JStr "a"); ("name", JStr "John");
                         ("tag", JStr "b")])
              Reference.unread)
           " boundary=x").
  - reflexivity.
  - reflexivity.
Defined.

Section BodyFurther.

Variable pf : Platform.

(** X9. A body that is itself a Blob, an ArrayBuffer or a FormData has no
    file among its values: on a body-carrying verb, without pre-request
    hook, the request carries its JSON text under content-type
    [application/json], not the object. *)
Theorem platform_object_body_is_json (domain : string) (config : Config)
    (paths : list string) (method : string) (body options : JsValue)
    (call : string * Obj) :
  isGetOrHead method = false ->
  isPlatformObject body = true ->
  config_onRequest config = None ->
  In call (fetchCalls
             (createMethodCaller pf domain config paths method body options)) ->
  Js.get "body" (snd call) = Some (JStr (JSON_stringify pf body))
  /\ exists hs,
       Js.get "headers" (snd call) = Some (JObj hs)
       /\ Js.get "content-type" hs = Some (JStr "application/json").
Proof.
  intros Hverb Hobj Hnone Hin.
  destruct (issued_request _ _ _ _ _ _ _ _ Hin) as (ch & Hh & _ & Hrun).
  apply (runOnRequest_without_hook _ _ _ Hnone) in Hrun. rewrite Hrun.
  unfold actualOptionsOf, bodyOf. rewrite Hverb.
  assert (Js.isNullish body = false /\ hasFiles body = false
          /\ Js.typeofObject body = true) as (Hn & Hf & Ht)
      by (destruct body; try discriminate; repeat split; reflexivity).
  rewrite buildInit_with_body by assumption.
  unfold encodeBody. rewrite Hf, Ht. split.
  - apply JsFacts.get_set_same.
  - eexists. rewrite JsFacts.get_set_other by discriminate.
    rewrite JsFacts.get_set_same. split; [reflexivity|].
    apply JsFacts.get_set_same.
Qed.

(** X10. Member lookups whose names are not verbs accumulate the names in
    order as path segments, [index] apart, which adds nothing; the domain and
    the configuration stay those of the proxy. *)
Theorem member_chain_accumulates (p : Proxy) (names : list string) :
  forallb (fun name => negb (existsb (String.eqb name) HTTP_METHODS)) names
  = true ->
  lookupChain pf p names
  = Some (createProxy (proxy_domain p) (proxy_config p)
            (proxy_paths p
               ++ filter (fun name => negb (name =? "index")) names)).
Proof.
  revert p. induction names as [|name rest IH]; intros [domain config paths];
    simpl.
  - intros _. now rewrite app_nil_r.
  - intros Hall. apply andb_prop in Hall as [Hname Hrest].
    apply negb_true_iff in Hname. unfold proxy_get. rewrite Hname.
    destruct (name =? "index"); simpl; rewrite IH by assumption; simpl.
    + reflexivity.
    + now rewrite <- app_assoc.
Qed.

End BodyFurther.

(** A [PUT] of a Blob *)
Lemma platform_object_body_is_json_witness :
  let call :=
    ("http://localhost:3000/avatar",
     [("method", JStr "PUT");
      ("headers", JObj [("content-type", JStr "application/json")]);
      ("body", JStr "{}")]) in
  Js.get "body" (snd call)
  = Some (JStr (JSON_stringify Reference.okPlatform (JBlob [x89; x50]%byte)))
  /\ exists hs,
       Js.get "headers" (snd call) = Some (JObj hs)
       /\ Js.get "content-type" hs = Some (JStr "application/json").
Proof.
  apply (@platform_object_body_is_json Reference.okPlatform
           "http://localhost:3000" Reference.noConfig ["avatar"] "put"
           (JBlob [x89; x50]%byte) JUndefined
           ("http://localhost:3000/avatar",
            [("method", JStr "PUT");
             ("headers", JObj [("content-type", JStr "application/json")]);
             ("body", JStr "{}")])).
  - reflexivity.
  - reflexivity.
  - reflexivity.
  - left. reflexivity.
Defined.

(** [api.posts.index.comments] *)
Lemma member_chain_accumulates_witness :
  lookupChain Reference.okPlatform
    (createProxy "http://localhost:3000" Reference.noConfig [])
    ["posts"; "index"; "comments"]
  = Some (createProxy "http://localhost:3000" Reference.noConfig
            ([] ++ filter (fun name => negb (name =? "index"))
                          ["posts"; "index"; "comments"])).
Proof.
  apply (@member_chain_accumulates Reference.okPlatform
           (createProxy "http://localhost:3000" Reference.noConfig [])
           ["posts"; "index"; "comments"]).
  reflexivity.
Defined.

(** [api.users({id: 123, slug: "john"})] and [api.users["123"]] *)
Lemma param_is_segment_witness :
  let p := createProxy "http://localhost:3000" Reference.noConfig ["users"] in
  proxy_get Reference.okPlatform p (js_String Reference.okPlatform (JNum 123))
  = SubProxy (proxy_apply Reference.okPlatform p
                [JObj [("id", JNum 123); ("slug", JStr "john")]]).
Proof.
  apply (@param_is_segment Reference.okPlatform
           (createProxy "http://localhost:3000" Reference.noConfig ["users"])
           "id" (JNum 123) [("slug", JStr "john")]).
  - reflexivity.
  - reflexivity.
Defined.

(** * Further properties of the server *)

Section PipelineFurther.

Import Server.

Variable pf : Platform.

(** The wrapped handler, stage by stage: the derive loop runs from the seeded
    context, the resolve loop from what it left, the handler from what that
    left; a rejection ends the run there. *)
Lemma wrapHandler_stages (deriveFns resolveFns : list CtxFn)
    (decorators : Obj) (handler : CtxFn) (ctx store : Obj) :
  wrapHandler pf deriveFns resolveFns decorators handler (mkPState ctx store)
  = match runFns Derive deriveFns (Spec.seeded decorators ctx store) with
    | (evD, stD, Rejected e) => (evD, stD, Rejected e)
    | (evD, stD, Resolved _) =>
        match runFns Resolve resolveFns stD with
        | (evR, stR, Rejected e) => (evD ++ evR, stR, Rejected e)
        | (evR, stR, Resolved _) =>
            match handler stR with
            | (stH, Rejected e) =>
                (evD ++ evR ++ [Invoked Handle stR], stH, Rejected e)
            | (stH, Resolved result) =>
                (evD ++ evR ++ Invoked Handle stR :: written pf result,
                 stH, Resolved tt)
            end
        end
    end.
Proof.
  unfold wrapHandler.
  unfold pbind at 1. unfold modifyCtx at 1. simpl ps_ctx. simpl ps_store.
  unfold pbind at 1. unfold modifyCtx at 1. simpl ps_ctx. simpl ps_store.
  change (mkPState (Js.assign _ decorators) store)
    with (Spec.seeded decorators ctx store).
  unfold pbind at 1.
  destruct (runFns Derive deriveFns _) as [[evD stD] [u|e]]; simpl app;
    [|reflexivity].
  unfold pbind at 1.
  destruct (runFns Resolve resolveFns stD) as [[evR stR] [u'|e]];
    [|reflexivity].
  unfold pbind at 1. unfold invoke.
  destruct (handler stR) as [stH [result|e]]; [|reflexivity].
  assert (forall st, (match result with
                      | JUndefined => pret tt
                      | _ => if Js.typeofObject result && negb (Js.isNull result)
                             then emit (ResJson result)
                             else emit (ResSend (js_String pf result))
                      end) st = (written pf result, st, Resolved tt)) as Hw
      by (intros st; unfold written; destruct result; reflexivity).
  rewrite Hw. reflexivity.
Qed.

(** One turn of a loop *)
Lemma runFns_cons (stage : Stage) (fn : CtxFn) (rest : list CtxFn)
    (st : PState) :
  runFns stage (fn :: rest) st
  = match fn st with
    | (after, Resolved returned) =>
        match runFns stage rest (Spec.merged after returned) with
        | (evs, st', out) => (Invoked stage st :: evs, st', out)
        end
    | (after, Rejected e) => ([Invoked stage st], after, Rejected e)
    end.
Proof.
  simpl. unfold pbind at 1. unfold invoke.
  destruct (fn st) as [after [returned|e]]; [|reflexivity].
  unfold pbind at 1. unfold modifyCtx at 1.
  change (mkPState _ (ps_store after)) with (Spec.merged after returned).
  destruct (runFns stage rest _) as [[evs st'] out]. reflexivity.
Qed.

(** Every run of a loop: either its functions resolved one after the other
    in the order of the list, each called on the state the one before left
    with its contribution merged in, or the loop stopped at the first one
    that rejected. *)
Lemma runFns_outcome (stage : Stage) (fns : list CtxFn) (st : PState) :
  (exists seen st',
     Spec.Chain fns st seen st'
     /\ runFns stage fns st = (map (Invoked stage) seen, st', Resolved tt))
  \/ (exists seen after reason,
        StoppedAt fns st seen after reason
        /\ runFns stage fns st
           = (map (Invoked stage) seen, after, Rejected reason)).
Proof.
  revert st. induction fns as [|fn rest IH]; intros st.
  - left. exists [], st. split; [constructor | reflexivity].
  - rewrite runFns_cons. destruct (fn st) as [st1 [v|e]] eqn:Hfn.
    + destruct (IH (Spec.merged st1 v))
        as [(seen & st' & Hchain & ->)
           |(seen & after & reason & Hstop & ->)].
      * left. exists (st :: seen), st'. split; [|reflexivity].
        econstructor; eassumption.
      * right. exists (st :: seen), after, reason. split; [|reflexivity].
        destruct Hstop as (pre & f & post & before & reached
                           & -> & Hchain & Hf & ->).
        exists (fn :: pre), f, post, (st :: before), reached.
        repeat split; auto. econstructor; eassumption.
    + right. exists [st], st1, e. split; [|reflexivity].
      exists [], fn, rest, [], st. repeat split; auto. constructor.
Qed.

(** X14. Every run of the wrapped handler has one of four shapes. The derive
    functions are called in the order of registration, each on the context
    the one before left with its contribution merged in, starting from the
    seeded context, until one rejects: then the run rejects and nothing else
    is called. Otherwise the resolve functions are called likewise, starting
    where the derive functions ended. Otherwise the handler is called once
    on the context the resolve functions left; if it rejects the run rejects
    and nothing is written, and if it resolves the response is written and
    nothing more is called. *)
Theorem stage_order_in_every_run (deriveFns resolveFns : list CtxFn)
    (decorators : Obj) (handler : CtxFn) (ctx store : Obj) :
  let s0 := Spec.seeded decorators ctx store in
  let run :=
    wrapHandler pf deriveFns resolveFns decorators handler
                (mkPState ctx store) in
  (exists seen after reason,
     StoppedAt deriveFns s0 seen after reason
     /\ run = (map (Invoked Derive) seen, after, Rejected reason))
  \/ exists seenD sD,
       Spec.Chain deriveFns s0 seenD sD
       /\ ((exists seen after reason,
              StoppedAt resolveFns sD seen after reason
              /\ run = (map (Invoked Derive) seenD
                          ++ map (Invoked Resolve) seen,
                        after, Rejected reason))
           \/ exists seenR sR,
                Spec.Chain resolveFns sD seenR sR
                /\ ((exists after reason,
                       handler sR = (after, Rejected reason)
                       /\ run = (map (Invoked Derive) seenD
                                   ++ map (Invoked Resolve) seenR
                                   ++ [Invoked Handle sR],
                                 after, Rejected reason))
                    \/ exists after result,
                         handler sR = (after, Resolved result)
                         /\ run = (map (Invoked Derive) seenD
                                     ++ map (Invoked Resolve) seenR
                                     ++ Invoked Handle sR
                                        :: written pf result,
                                   after, Resolved tt))).
Proof.
  cbv zeta. rewrite wrapHandler_stages.
  destruct (runFns_outcome Derive deriveFns (Spec.seeded decorators ctx store))
    as [(seenD & sD & HchainD & ->)|(seen & after & reason & Hstop & ->)].
  - right. exists seenD, sD. split; [exact HchainD|].
    destruct (runFns_outcome Resolve resolveFns sD)
      as [(seenR & sR & HchainR & ->)|(seen & after & reason & Hstop & ->)].
    + right. exists seenR, sR. split; [exact HchainR|].
      destruct (handler sR) as [after [result|reason]] eqn:Hh.
      * right. exists after, result. split; reflexivity.
      * left. exists after, reason. split; reflexivity.
    + left. exists seen, after, reason. split; [exact Hstop | reflexivity].
  - left. exists seen, after, reason. split; [exact Hstop | reflexivity].
Qed.

(** A loop whose functions leave the store alone leaves the store alone. *)
Lemma runFns_keeps_store (stage : Stage) (fns : list CtxFn) (st : PState) :
  (forall fn, In fn fns -> forall s, ps_store (fst (fn s)) = ps_store s) ->
  ps_store (snd (fst (runFns stage fns st))) = ps_store st.
Proof.
  revert st. induction fns as [|fn rest IH]; intros st Hkeep; [reflexivity|].
  rewrite runFns_cons.
  pose proof (Hkeep fn (or_introl eq_refl) st) as Hfn.
  destruct (fn st) as [st1 [v|e]]; simpl in Hfn; [|exact Hfn].
  assert (ps_store (snd (fst (runFns stage rest (Spec.merged st1 v))))
          = ps_store (Spec.merged st1 v)) as Hrest
      by (apply IH; intros f Hf; apply Hkeep; now right).
  destruct (runFns stage rest _) as [[evs st'] out].
  simpl in *. congruence.
Qed.

(** X15. The pipeline itself never writes to the store: when the functions
    of a request leave the store as they found it, the store after the run is
    the store before it, however the run ends. *)
Theorem pipeline_keeps_store (deriveFns resolveFns : list CtxFn)
    (decorators : Obj) (handler : CtxFn) (ctx store : Obj) :
  (forall fn, In fn (deriveFns ++ resolveFns ++ [handler]) ->
              forall s, ps_store (fst (fn s)) = ps_store s) ->
  ps_store (snd (fst (wrapHandler pf deriveFns resolveFns decorators handler
                        (mkPState ctx store))))
  = store.
Proof.
  intros Hkeep. rewrite wrapHandler_stages.
  assert (forall fn, In fn deriveFns ->
                     forall s, ps_store (fst (fn s)) = ps_store s) as HD
      by (intros fn Hin; apply Hkeep, in_or_app; now left).
  assert (forall fn, In fn resolveFns ->
                     forall s, ps_store (fst (fn s)) = ps_store s) as HR
      by (intros fn Hin; apply Hkeep, in_or_app; right;
          apply in_or_app; now left).
  assert (forall s, ps_store (fst (handler s)) = ps_store s) as HH
      by (apply Hkeep, in_or_app; right; apply in_or_app; right; now left).
  pose proof (runFns_keeps_store Derive deriveFns
                (Spec.seeded decorators ctx store) HD) as H1.
  destruct (runFns Derive deriveFns _) as [[evD stD] [u|e]]; simpl in H1;
    [|exact H1].
  pose proof (runFns_keeps_store Resolve resolveFns stD HR) as H2.
  destruct (runFns Resolve resolveFns stD) as [[evR stR] [u'|e]];
    simpl in H2; [|simpl; congruence].
  pose proof (HH stR) as H3.
  destruct (handler stR) as [stH [result|e]]; simpl in *; congruence.
Qed.

(** A loop over two lists of functions is the loop over the first followed
    by the loop over the second. *)
Lemma runFns_app (stage : Stage) (fns1 fns2 : list CtxFn) (st : PState) :
  runFns stage (fns1 ++ fns2) st
  = pbind (runFns stage fns1) (fun _ => runFns stage fns2) st.
Proof.
  revert st. induction fns1 as [|fn rest IH]; intros st.
  - simpl. unfold pbind, pret.
    destruct (runFns stage fns2 st) as [[evs st'] out]. reflexivity.
  - change ((fn :: rest) ++ fns2) with (fn :: rest ++ fns2).
    unfold pbind. rewrite !runFns_cons.
    destruct (fn st) as [st1 [v|e]]; [|reflexivity].
    rewrite IH. unfold pbind.
    destruct (runFns stage rest _) as [[evs st'] [u|e]]; [|reflexivity].
    destruct (runFns stage fns2 st') as [[evs' st''] out]. reflexivity.
Qed.

(** X16. After [use], the derive loop of a request is the host's derive loop
    followed by the mounted unit's, run on the context the host's functions
    left, and likewise the resolve loop: the mounted unit's functions see
    what the host's contributed, and a rejection among the host's keeps the
    mounted unit's from running. *)
Theorem use_runs_host_then_plugin (this plugin : Kito) (st : PState) :
  runFns Derive (deriveFunctions (use this plugin)) st
  = pbind (runFns Derive (deriveFunctions this))
          (fun _ => runFns Derive (deriveFunctions plugin)) st
  /\ runFns Resolve (resolveFunctions (use this plugin)) st
     = pbind (runFns Resolve (resolveFunctions this))
             (fun _ => runFns Resolve (resolveFunctions plugin)) st.
Proof. split; apply runFns_app. Qed.

(** The first call of a run is made on the seeded context. *)
Lemma first_call_on_seeded (deriveFns resolveFns : list CtxFn)
    (decorators : Obj) (handler : CtxFn) (ctx store : Obj) :
  exists stage rest,
    fst (fst (wrapHandler pf deriveFns resolveFns decorators handler
                (mkPState ctx store)))
    = Invoked stage (Spec.seeded decorators ctx store) :: rest.
Proof.
  rewrite wrapHandler_stages.
  set (s0 := Spec.seeded decorators ctx store).
  destruct deriveFns as [|fn fns].
  - simpl runFns at 1. unfold pret.
    destruct resolveFns as [|fn fns].
    + simpl. destruct (handler s0) as [stH [result|e]]; simpl; eauto.
    + rewrite runFns_cons.
      destruct (fn s0) as [st1 [v|e]]; [|simpl; eauto].
      destruct (runFns Resolve fns _) as [[evs st'] [u|e]]; simpl; eauto.
      destruct (handler st') as [stH [result|e]]; simpl; eauto.
  - rewrite runFns_cons.
    destruct (fn s0) as [st1 [v|e]]; [|simpl; eauto].
    destruct (runFns Derive fns _) as [[evs st'] [u|e]]; simpl; eauto.
    destruct (runFns Resolve resolveFns st') as [[evR stR] [u'|e]];
      simpl; eauto.
    destruct (handler stR) as [stH [result|e]]; simpl; eauto.
Qed.

(** X17. A value registered with [decorate] is what the first function
    called in a request finds under that key, on a route wrapped after the
    registration, whatever the request's context or an earlier decorator held
    there. *)
Theorem decorator_reaches_first_function (this : Kito) (key : string)
    (value : JsValue) (handler : CtxFn) (ctx : Obj) :
  NoDup (map fst (match decorators this with Some d => d | None => [] end)) ->
  exists stage seen rest,
    fst (fst (wrapHandlerOf pf (decorate this key value) handler ctx))
    = Invoked stage seen :: rest
    /\ Js.get key (ps_ctx seen) = Some value.
Proof.
  intros Hnd. unfold wrapHandlerOf. simpl decorators.
  simpl deriveFunctions. simpl resolveFunctions. simpl singletonStore.
  set (ds := match decorators this with Some d => d | None => [] end) in *.
  destruct (first_call_on_seeded (deriveFunctions this) (resolveFunctions this)
              (Js.set key value ds) handler ctx (singletonStore this))
    as (stage & rest & ->).
  exists stage, (Spec.seeded (Js.set key value ds) ctx (singletonStore this)),
    rest.
  split; [reflexivity|].
  rewrite seeded_get, JsFacts.get_rev by now apply JsFacts.NoDup_set.
  now rewrite JsFacts.get_set_same.
Qed.

(** X18. [state] and [use] do not commute on a key the mounted unit's store
    has: registered after the mount the value stands, registered before the
    mount it is replaced by the mounted unit's. *)
Theorem state_then_use_order (this plugin : Kito) (key : string)
    (value other : JsValue) :
  NoDup (map fst (singletonStore plugin)) ->
  Js.get key (singletonStore plugin) = Some other ->
  Js.get key (singletonStore (state (use this plugin) key value)) = Some value
  /\ Js.get key (singletonStore (use (state this key value) plugin))
     = Some other.
Proof.
  intros Hnd Hget. split; simpl.
  - apply JsFacts.get_set_same.
  - now rewrite JsFacts.get_assign, JsFacts.get_rev, Hget.
Qed.

End PipelineFurther.

(** A request whose second derive function turns it away *)
Lemma wrapHandler_derive_rejects_witness :
  let decorators : Obj := [("logger", JStr "console")] in
  let ctx : Obj := [("request", JStr "GET /whoami")] in
  let store : Obj := [("requestCount", JNum 0)] in
  let out1 := JObj [("authToken", JStr "secret"); ("user", JStr "anonymous")] in
  let s0 := Spec.seeded decorators ctx store in
  let s1 := Spec.merged s0 out1 in
  Server.wrapHandler Reference.okPlatform
    ([Reference.deriveToken] ++ denyAccess :: [Reference.deriveUser])
    [Reference.resolveCount] decorators Reference.whoami
    (Server.mkPState ctx store)
  = (map (Server.Invoked Server.Derive) ([s0] ++ [s1]), s1,
     Rejected (JStr "Unauthorized")).
Proof.
  cbv zeta.
  apply (@wrapHandler_derive_rejects Reference.okPlatform
           [Reference.deriveToken] denyAccess [Reference.deriveUser]
           [Reference.resolveCount] [("logger", JStr "console")]
           Reference.whoami [("request", JStr "GET /whoami")]
           [("requestCount", JNum 0)]
           [Spec.seeded [("logger", JStr "console")]
              [("request", JStr "GET /whoami")] [("requestCount", JNum 0)]]
           (Spec.merged
              (Spec.seeded [("logger", JStr "console")]
                 [("request", JStr "GET /whoami")] [("requestCount", JNum 0)])
              (JObj [("authToken", JStr "secret"); ("user", JStr "anonymous")]))
           (Spec.merged
              (Spec.seeded [("logger", JStr "console")]
                 [("request", JStr "GET /whoami")] [("requestCount", JNum 0)])
              (JObj [("authToken", JStr "secret"); ("user", JStr "anonymous")]))
           (JStr "Unauthorized")).
  - eapply Spec.Chain_cons; [reflexivity | apply Spec.Chain_nil].
  - reflexivity.
Defined.

(** A request whose functions only read the store *)
Lemma pipeline_keeps_store_witness :
  Server.ps_store
    (snd (fst (Server.wrapHandler Reference.okPlatform
                 [Reference.deriveToken; Reference.deriveUser] []
                 [("logger", JStr "console")] Reference.whoami
                 (Server.mkPState [("request", JStr "GET /whoami")]
                                  [("requestCount", JNum 0)]))))
  = [("requestCount", JNum 0)].
Proof.
  apply (@pipeline_keeps_store Reference.okPlatform
           [Reference.deriveToken; Reference.deriveUser] []
           [("logger", JStr "console")] Reference.whoami
           [("request", JStr "GET /whoami")] [("requestCount", JNum 0)]).
  intros fn [<-|[<-|[<-|[]]]] s; reflexivity.
Defined.

(** A logger registered over an earlier one, on a request whose context
    has a [logger] of its own *)
Lemma decorator_reaches_first_function_witness :
  exists stage seen rest,
    fst (fst (Server.wrapHandlerOf Reference.okPlatform
                (Server.decorate
                   (Server.decorate (Server.kito None) "logger" (JStr "console"))
                   "logger" (JStr "winston"))
                Reference.whoami [("logger", JStr "request's")]))
    = Server.Invoked stage seen :: rest
    /\ Js.get "logger" (Server.ps_ctx seen) = Some (JStr "winston").
Proof.
  apply (@decorator_reaches_first_function Reference.okPlatform
           (Server.decorate (Server.kito None) "logger" (JStr "console"))
           "logger" (JStr "winston") Reference.whoami
           [("logger", JStr "request's")]).
  simpl. constructor; [intros []|constructor].
Defined.

(** A host and a mounted unit that both register [counter] *)
Lemma state_then_use_order_witness :
  let plugin := Server.state (Server.kito None) "counter" (JNum 5) in
  Js.get "counter"
    (Server.singletonStore
       (Server.state (Server.use (Server.kito None) plugin) "counter" (JNum 0)))
  = Some (JNum 0)
  /\ Js.get "counter"
       (Server.singletonStore
          (Server.use (Server.state (Server.kito None) "counter" (JNum 0))
                      plugin))
     = Some (JNum 5).
Proof.
  apply (@state_then_use_order (Server.kito None)
           (Server.state (Server.kito None) "counter" (JNum 5))
           "counter" (JNum 0) (JNum 5)).
  - simpl. constructor; [intros []|constructor].
  - reflexivity.
Defined.

(** * The route table and its type *)

Section RoutesFurther.

Import Routes.

Variable pf : Platform.

(** The defining equation of [CreateRoutePath] *)
Lemma CreateRoutePath_unfold (Path : string) :
  CreateRoutePath Path
  = match Path with
    | EmptyString => []
    | String c Rest =>
        if Ascii.eqb c "/" then CreateRoutePath Rest
        else match splitSlash Path with
             | Some (Segment, Rest') => Segment :: CreateRoutePath Rest'
             | None => [Path]
             end
    end.
Proof.
  destruct Path as [|c Rest]; simp CreateRoutePath; [reflexivity|].
  destruct (Ascii.eqb c "/"); simp CreateRoutePath; [reflexivity|].
  destruct (inspect (splitSlash (String c Rest))) as [[[Segment Rest']|] eq];
    simp CreateRoutePath; now rewrite eq.
Qed.

Lemma splitSlash_plain (segment : string) :
  ~ In "/"%char (list_ascii_of_string segment) ->
  splitSlash segment = None
  /\ forall rest, splitSlash (segment ++ String "/" rest)%string
                  = Some (segment, rest).
Proof.
  induction segment as [|c s IH]; simpl; intros Hno.
  - split; [reflexivity|]. intros rest. reflexivity.
  - destruct (Ascii.eqb_spec c "/") as [->|Hc]; [tauto|].
    destruct IH as [IH1 IH2]; [tauto|]. rewrite IH1. split; [reflexivity|].
    intros rest. now rewrite IH2.
Qed.

Lemma CreateRoutePath_leading_slash (Path : string) :
  CreateRoutePath (String "/" Path) = CreateRoutePath Path.
Proof. now rewrite CreateRoutePath_unfold. Qed.

Lemma CreateRoutePath_join (segments : list string) :
  Forall plainSegment segments ->
  CreateRoutePath (Str.join "/" segments) = segments.
Proof.
  induction 1 as [|segment rest [Hne Hno] Hrest IH].
  - reflexivity.
  - destruct (splitSlash_plain segment Hno) as [Hnone Hsplit].
    rewrite CreateRoutePath_unfold.
    destruct rest as [|next rest].
    + simpl Str.join. destruct segment as [|c s]; [congruence|].
      destruct (Ascii.eqb_spec c "/") as [->|Hc]; [simpl in Hno; tauto|].
      now rewrite Hnone.
    + change (Str.join "/" (segment :: next :: rest))
        with (segment ++ String "/" (Str.join "/" (next :: rest)))%string in *.
      rewrite Hsplit, IH.
      destruct segment as [|c s]; [congruence|].
      cbn [append].
      destruct (Ascii.eqb_spec c "/") as [->|Hc]; [simpl in Hno; tauto|].
      reflexivity.
Qed.

(** X19. The type of a route nests its entry under the segments of the
    route's path, outermost first: for a path made of segments that have
    some text and no slash, joined by slashes, with or without a leading
    slash, the keys are exactly those segments. *)
Theorem CreateRoutePath_segments (segments : list string) :
  Forall plainSegment segments ->
  CreateRoutePath ("/" ++ Str.join "/" segments)%string = segments
  /\ CreateRoutePath (Str.join "/" segments) = segments.
Proof.
  intros Hall. split; [|now apply CreateRoutePath_join].
  change ("/" ++ Str.join "/" segments)%string
    with (String "/" (Str.join "/" segments)).
  rewrite CreateRoutePath_leading_slash. now apply CreateRoutePath_join.
Qed.



(** X21. [addRoute] makes one call on the internal server, and the path of
    that call is the prefix immediately followed by the path as given (the
    path alone when there is no prefix); the path the route's type declares
    is [JoinPath] of the two, which puts a slash between them when the path
    has none in front. The two are the same exactly when there is no prefix,
    or the path is empty, or the path starts with a slash. *)
Theorem route_path_matches_type (this : Server.Kito) (registered : list Route)
    (method path : string) (schemaOrHandler : SchemaOrHandler)
    (handler : option Server.CtxFn) :
  exists route,
    addRoute this registered method path schemaOrHandler handler
    = registered ++ [route]
    /\ route_path route = (BasePath this ++ path)%string
    /\ (route_path route = JoinPath (BasePath this) path
        <-> BasePath this = "" \/ path = ""
            \/ String.prefix "/" path = true).
Proof.
  assert (fullPath this path = (BasePath this ++ path)%string) as Hfull.
  { unfold fullPath, BasePath. destruct (Server.prefix this) as [p|]; auto.
    destruct (String.eqb_spec p "") as [->|Hp]; reflexivity. }
  assert (forall p, (p ++ "")%string = p) as app_empty
      by (induction p; simpl; congruence).
  assert (forall p x y, (p ++ x)%string = (p ++ y)%string -> x = y) as app_inj
      by (induction p as [|c0 p0 IHp]; simpl; intros x y Hxy;
          [assumption | injection Hxy; auto]).
  assert (fullPath this path = JoinPath (BasePath this) path
          <-> BasePath this = "" \/ path = "" \/ String.prefix "/" path = true)
    as Hiff.
  { unfold fullPath, JoinPath, BasePath.
    destruct (Server.prefix this) as [p|]; simpl.
    - destruct (String.eqb_spec p "") as [->|Hp]; [tauto|].
      destruct (String.eqb_spec path "") as [->|Hpath];
        [rewrite app_empty; tauto|].
      destruct path as [|c rest]; [congruence|].
      cbn [String.prefix].
      destruct (ascii_dec "/" c) as [<-|Hc].
      + destruct rest; tauto.
      + split.
        * intros Heq. apply app_inj in Heq. congruence.
        * intros [|[|]]; congruence.
    - tauto. }
  unfold addRoute. cbv zeta.
  destruct (Js.truthy _); eexists;
    (split; [reflexivity | split; [exact Hfull | exact Hiff]]).
Qed.

End RoutesFurther.

(** [/api/users/profile] *)
Lemma CreateRoutePath_segments_witness :
  Routes.CreateRoutePath "/api/users/profile" = ["api"; "users"; "profile"]
  /\ Routes.CreateRoutePath "api/users/profile" = ["api"; "users"; "profile"].
Proof.
  apply (@CreateRoutePath_segments ["api"; "users"; "profile"]).
  repeat constructor; try discriminate; simpl; intuition discriminate.
Defined.


(** A route given without its leading slash under a prefix is registered
    glued to the prefix, while its type has the slash; a trailing slash of
    the path is not among the keys of the type. *)
Example prefix_without_slash :
  let app := Server.kito (Some "/api") in
  map Routes.route_path
      (Routes.addRoute app [] "GET" "users" (Routes.IsFunction Reference.whoami)
                       None)
  = ["/apiusers"]
  /\ Routes.JoinPath (Routes.BasePath app) "users" = "/api/users"
  /\ Routes.CreateRoutePath "/users/" = ["users"]
  /\ Routes.CreateRoutePath "/users//posts" = ["users"; "posts"].
Proof.
  cbv zeta. split; [reflexivity|]. split; [reflexivity|].
  rewrite !CreateRoutePath_unfold. cbn.
  rewrite !CreateRoutePath_unfold. cbn.
  repeat (rewrite !CreateRoutePath_unfold; cbn). split; reflexivity.
Qed.
